(** * update-profile-service: a shallow embedding and its properties

    The Go service validates a profile update ([handler.validateProfile]),
    writes it to the AT Protocol record service
    ([handler.updateProfileInATProtocol]) and mirrors it into DynamoDB
    ([dynamodb.UpdateUserInDynamoDB], built on
    [dynamodb.buildUpdateExpression]); [handler.HandleRequest] sequences the
    three.

    Go strings are byte strings, modelled by [string]; a Go [error] is
    modelled by its message, and a possibly-nil error by [option error].
    Go maps are [gmap]s.  Everything outside the process (AWS configuration,
    the HTTP round trip, DynamoDB, the clock, the UUID generator, the order
    in which the runtime ranges over a map) is a field of a [World]; the
    calls that leave the process are recorded, in order, in a trace.
    Logging ([logrus], [log.Printf]) has no influence on results and is left
    out. *)

From stdpp Require Import base strings list gmap fin_maps.
From Stdlib Require Import Ascii.

(** ** The [strings] package *)

Module strings.

(** [strings.Join(elems, sep)] *)
Fixpoint Join (elems : list string) (sep : string) : string :=
  match elems with
  | [] => ""
  | x :: rest =>
      match rest with
      | [] => x
      | _ :: _ => x +:+ sep +:+ Join rest sep
      end
  end.

(** [strings.HasPrefix(s, prefix)] *)
Fixpoint HasPrefix (s prefix : string) : bool :=
  match prefix, s with
  | EmptyString, _ => true
  | String a prefix', String b s' =>
      if Ascii.eqb a b then HasPrefix s' prefix' else false
  | String _ _, EmptyString => false
  end.

(** [strings.Contains(s, substr)] *)
Fixpoint Contains (s substr : string) : bool :=
  HasPrefix s substr ||
  match s with
  | EmptyString => false
  | String _ s' => Contains s' substr
  end.

End strings.

(** ** The [regexp] package, as far as the service uses it

    Regular expressions over bytes, matched with Brzozowski derivatives.
    Both patterns of the service are anchored ([^...$]), so [MatchString]
    is a match of the whole string. *)

Module regexp.

Inductive Regexp : Type :=
| Void
| Eps
| Class (p : ascii -> bool)
| Cat (r1 r2 : Regexp)
| Alt (r1 r2 : Regexp)
| Star (r : Regexp).

Fixpoint nullable (r : Regexp) : bool :=
  match r with
  | Void => false
  | Eps => true
  | Class _ => false
  | Cat r1 r2 => nullable r1 && nullable r2
  | Alt r1 r2 => nullable r1 || nullable r2
  | Star _ => true
  end.

Fixpoint deriv (c : ascii) (r : Regexp) : Regexp :=
  match r with
  | Void => Void
  | Eps => Void
  | Class p => if p c then Eps else Void
  | Cat r1 r2 =>
      if nullable r1
      then Alt (Cat (deriv c r1) r2) (deriv c r2)
      else Cat (deriv c r1) r2
  | Alt r1 r2 => Alt (deriv c r1) (deriv c r2)
  | Star r1 => Cat (deriv c r1) (Star r1)
  end.

Fixpoint MatchString (r : Regexp) (s : string) : bool :=
  match s with
  | EmptyString => nullable r
  | String c s' => MatchString (deriv c r) s'
  end.

(** Pattern syntax. *)
Definition Opt (r : Regexp) : Regexp := Alt Eps r.          (* r? *)
Definition Plus (r : Regexp) : Regexp := Cat r (Star r).    (* r+ *)
Fixpoint Lit (s : string) : Regexp :=
  match s with
  | EmptyString => Eps
  | String c s' => Cat (Class (Ascii.eqb c)) (Lit s')
  end.

Definition between (lo hi c : ascii) : bool :=
  (nat_of_ascii lo <=? nat_of_ascii c)%nat && (nat_of_ascii c <=? nat_of_ascii hi)%nat.
Definition digit (c : ascii) : bool := between "0" "9" c.
Definition lower (c : ascii) : bool := between "a" "z" c.
Definition upper (c : ascii) : bool := between "A" "Z" c.
(** [.] matches every byte but the newline. *)
Definition dot (c : ascii) : bool := negb (Ascii.eqb c "010").

End regexp.

(** ** Package [models] *)

Module models.

Record UserProfile : Type := {
  NSID : string;
  DisplayName : string;
  Bio : string;
  ProfilePicture : string;
  ProfileBanner : string;
  Theme : string;
  PrimaryColor : string;
  SecondaryColor : string;
  UpdatedAt : string
}.

Record RequestPayload : Type := {
  Repo : string;
  Profile : UserProfile;
  BearerToken : string
}.

End models.
Export models.

(** ** The world outside the process *)

Definition error : Type := string.

(** [types.AttributeValue]; the service only builds string members. *)
Inductive AttributeValue : Type :=
| AttributeValueMemberS (Value : string).

Inductive ReturnValue : Type :=
| ReturnValueUpdatedNew.

(** [dynamodb.UpdateItemInput] *)
Record UpdateItemInput : Type := {
  TableName : string;
  Key : gmap string AttributeValue;
  UpdateExpression : string;
  ExpressionAttributeValues : gmap string AttributeValue;
  ReturnValues : ReturnValue
}.

(** The JSON document posted to the record service, before marshalling. *)
Record PutRecordBody : Type := {
  body_repo : string;
  body_collection : string;
  body_rkey : string;
  body_validate : bool;
  body_record : UserProfile
}.

(** [http.Request] and [http.Response] *)
Record Request : Type := {
  Method : string;
  URL : string;
  Header : gmap string string;
  Body : PutRecordBody
}.

Record Response : Type := {
  StatusCode : Z;
  Status : string
}.

Definition StatusOK : Z := 200.

Record World : Type := {
  (** [config.LoadDefaultConfig]: [None] when it returns a nil error *)
  LoadDefaultConfig : option error;
  (** [(&http.Client{}).Do] *)
  http_Do : Request -> error + Response;
  (** the [UpdateItem] operation of the DynamoDB service *)
  dynamo_UpdateItem : UpdateItemInput -> option error;
  (** [time.Now().Format(time.RFC3339)] *)
  time_Now : string;
  (** [uuid.New().String()] *)
  uuid_New : string;
  (** whether [time.Parse(time.RFC3339, s)] returns a nil error *)
  time_Parse_RFC3339 : string -> bool;
  (** the order in which [range] visits the entries of a map *)
  map_range : gmap string string -> list (string * string)
}.

(** Go leaves the iteration order of a map unspecified: [range] visits
    every entry exactly once, in some order. *)
Definition range_ok (w : World) : Prop :=
  forall m : gmap string string, map_range w m ≡ₚ map_to_list m.

(** Calls that leave the process. *)
Inductive Event : Type :=
| EvLoadDefaultConfig
| EvHttpDo (req : Request)
| EvUpdateItem (input : UpdateItemInput).

Definition Trace : Type := list Event.

(** Computations that append to the trace. *)
Definition IO (A : Type) : Type := Trace -> A * Trace.

#[global] Instance IO_ret : MRet IO := fun A x t => (x, t).
#[global] Instance IO_bind : MBind IO :=
  fun A B f m t => let '(x, t') := m t in f x t'.

Definition emit (e : Event) : IO unit := fun t => (tt, t ++ [e]).

(** Run a computation from the empty trace. *)
Definition run {A} (m : IO A) : A * Trace := m [].


(** ** Package [dynamodb] *)

Module dynamodb.

(** The [DynamoDBAPI] interface: one method, [UpdateItem]. *)
Record DynamoDBAPI : Type := {
  UpdateItem : UpdateItemInput -> IO (option error)
}.

Record DynamoClient : Type := {
  Client : DynamoDBAPI
}.

(** [dynamodb.NewFromConfig]: the client that talks to the service. *)
Definition NewFromConfig (w : World) : DynamoDBAPI :=
  {| UpdateItem := fun input =>
       _ ← emit (EvUpdateItem input);
       mret (dynamo_UpdateItem w input) |}.

Definition NewDynamoClient (w : World) : IO (error + DynamoClient) :=
  _ ← emit EvLoadDefaultConfig;
  match LoadDefaultConfig w with
  | Some err => mret (inl ("failed to load AWS SDK config: " +:+ err))
  | None => mret (inr {| Client := NewFromConfig w |})
  end.

Definition tableName : string := "Users".

(** The map literal [fields] of [buildUpdateExpression]. *)
Definition fields (profile : UserProfile) : gmap string string :=
  {[ "DisplayName" := DisplayName profile;
     "Bio" := Bio profile;
     "ProfilePicture" := ProfilePicture profile;
     "ProfileBanner" := ProfileBanner profile;
     "Theme" := Theme profile;
     "PrimaryColor" := PrimaryColor profile;
     "SecondaryColor" := SecondaryColor profile ]}.

(** One iteration of [for field, value := range fields]. *)
Definition range_body (acc : list string * gmap string AttributeValue)
    (kv : string * string) : list string * gmap string AttributeValue :=
  let '(updateParts, exprValues) := acc in
  let '(field, value) := kv in
  if bool_decide (value ≠ "")
  then (updateParts ++ [field +:+ " = :" +:+ field],
        <[":" +:+ field := AttributeValueMemberS value]> exprValues)
  else (updateParts, exprValues).

Definition buildUpdateExpression (w : World) (profile : UserProfile)
    : string * gmap string AttributeValue :=
  let '(updateParts, exprValues) :=
    foldl range_body ([], ∅) (map_range w (fields profile)) in
  let exprValues :=
    <[":UpdatedAt" := AttributeValueMemberS (time_Now w)]> exprValues in
  let updateParts := updateParts ++ ["UpdatedAt = :UpdatedAt"] in
  let updateExpr := strings.Join updateParts ", " in
  (updateExpr, exprValues).

Definition UpdateUserInDynamoDB (w : World) (d : DynamoClient)
    (userID : string) (profile : UserProfile) : IO (option error) :=
  if bool_decide (userID = "") then
    mret (Some "userID cannot be empty")
  else
    let '(updateExpression, exprValues) := buildUpdateExpression w profile in
    if bool_decide (size exprValues = 1) then
      mret (Some "no valid fields provided to update")
    else
      err ← UpdateItem (Client d)
        {| TableName := tableName;
           Key := {[ "UserId" := AttributeValueMemberS userID ]};
           UpdateExpression := "SET " +:+ updateExpression;
           ExpressionAttributeValues := exprValues;
           ReturnValues := ReturnValueUpdatedNew |};
      match err with
      | Some e => mret (Some ("failed to update user in DynamoDB: " +:+ e))
      | None => mret None
      end.

End dynamodb.

(** ** Package [handler] *)

Module handler.

(** [if cond { validationErrors = append(validationErrors, msg) }] *)
Definition appendIf (cond : bool) (validationErrors : list string)
    (msg : string) : list string :=
  if cond then validationErrors ++ [msg] else validationErrors.

Definition validateProfile (w : World) (profile : UserProfile) : option error :=
  let validationErrors := [] in
  let validationErrors :=
    appendIf (bool_decide (NSID profile ≠ "social.shareframe.profile"))
      validationErrors
      "invalid NSID: only social.shareframe.profile is allowed" in
  let validationErrors :=
    appendIf (bool_decide (DisplayName profile = ""))
      validationErrors "displayName must be present" in
  let validationErrors :=
    appendIf (bool_decide (256 < String.length (Bio profile)))
      validationErrors "bio must be 256 characters or fewer" in
  let validationErrors :=
    appendIf (bool_decide (Theme profile ≠ "") &&
              bool_decide (Theme profile ≠ "light") &&
              bool_decide (Theme profile ≠ "dark") &&
              bool_decide (Theme profile ≠ "custom"))
      validationErrors "theme must be light, dark, or custom" in
  let validationErrors :=
    appendIf (negb (time_Parse_RFC3339 w (UpdatedAt profile)))
      validationErrors "invalid datetime format for updatedAt" in
  if bool_decide (0 < length validationErrors) then
    Some ("profile validation failed: " +:+ strings.Join validationErrors "; ")
  else None.

(** [json.Marshal] cannot fail on a map of strings, a bool and a struct of
    strings, and [http.NewRequest] cannot fail on the constant method and
    URL, so their error branches are unreachable and left out. *)
Definition updateProfileInATProtocol (w : World) (repo : string)
    (profile : UserProfile) (bearerToken : string) (validate : bool)
    : IO (string * option error) :=
  let updateURL := "https://shareframe.social/xrpc/com.atproto.repo.putRecord" in
  let rkey := uuid_New w in
  let body :=
    {| body_repo := repo;
       body_collection := "social.shareframe.profile";
       body_rkey := rkey;
       body_validate := validate;
       body_record := profile |} in
  let req :=
    {| Method := "POST";
       URL := updateURL;
       Header := <["Authorization" := "Bearer " +:+ bearerToken]>
                   (<["Content-Type" := "application/json"]> ∅);
       Body := body |} in
  _ ← emit (EvHttpDo req);
  match http_Do w req with
  | inl err => mret ("", Some err)
  | inr resp =>
      if bool_decide (StatusCode resp ≠ StatusOK) then
        mret ("", Some ("failed to update profile: " +:+ Status resp))
      else
        mret ("Profile successfully updated", None)
  end.

Definition HandleRequest (w : World) (request : RequestPayload)
    : IO (gmap string string * option error) :=
  r ← dynamodb.NewDynamoClient w;
  match r with
  | inl err => mret ({[ "error" := "Internal server error" ]}, Some err)
  | inr dynamoClient =>
      let profile := Profile request in
      match validateProfile w profile with
      | Some err => mret ({[ "error" := err ]}, None)
      | None =>
          '(response, err) ← updateProfileInATProtocol w (Repo request) profile
                               (BearerToken request) false;
          match err with
          | Some err => mret ({[ "error" := err ]}, None)
          | None =>
              err ← dynamodb.UpdateUserInDynamoDB w dynamoClient
                      (Repo request) profile;
              match err with
              | Some err =>
                  mret ({[ "error" := "Failed to update profile in database" ]},
                        Some err)
              | None =>
                  mret ({[ "message" := "Profile updated successfully";
                           "response" := response ]}, None)
              end
          end
      end
  end.

(** The other revision of this package kept in the repository checks URLs
    and colours against two patterns; they give the "generic URL shape" and
    the "hex colour shape" their meaning.

    Written with spaces between the tokens, the patterns are
      hexColorRegex:  ^ # (?: [0-9a-fA-F]{3} ){1,2} $
      urlRegex:       ^ ( https? :// )? ( [a-zA-Z0-9.-]+ ) ( : [0-9]+ )? ( / .* )? $ *)
Definition hexdigit (c : ascii) : bool :=
  regexp.digit c || regexp.between "a" "f" c || regexp.between "A" "F" c.

Definition hexColorRegex : regexp.Regexp :=
  let hex := regexp.Class hexdigit in
  let hex3 := regexp.Cat hex (regexp.Cat hex hex) in
  regexp.Cat (regexp.Lit "#") (regexp.Cat hex3 (regexp.Opt hex3)).

Definition hostchar (c : ascii) : bool :=
  regexp.lower c || regexp.upper c || regexp.digit c ||
  Ascii.eqb c "." || Ascii.eqb c "-".

Definition urlRegex : regexp.Regexp :=
  regexp.Cat
    (regexp.Opt (regexp.Cat (regexp.Lit "http")
                   (regexp.Cat (regexp.Opt (regexp.Lit "s")) (regexp.Lit "://"))))
    (regexp.Cat
       (regexp.Plus (regexp.Class hostchar))
       (regexp.Cat
          (regexp.Opt (regexp.Cat (regexp.Lit ":")
                         (regexp.Plus (regexp.Class regexp.digit))))
          (regexp.Opt (regexp.Cat (regexp.Lit "/")
                         (regexp.Star (regexp.Class regexp.dot)))))).

Definition isValidURL (url : string) : bool := regexp.MatchString urlRegex url.

Definition isValidHexColor (color : string) : bool :=
  regexp.MatchString hexColorRegex color.

End handler.


(** ** Sample worlds and requests

    The theorems below quantify over every [World]; these closed ones are
    used to run the code. *)

(** A stand-in for [time.Parse(time.RFC3339, _)] on timestamps of the form
    [YYYY-MM-DDThh:mm:ssZ]; it agrees with Go on the timestamps used below. *)
Definition sample_time_Parse (s : string) : bool :=
  let d := regexp.Class regexp.digit in
  let d2 := regexp.Cat d d in
  let lit := regexp.Lit in
  regexp.MatchString
    (regexp.Cat d2 (regexp.Cat d2 (regexp.Cat (lit "-") (regexp.Cat d2
      (regexp.Cat (lit "-") (regexp.Cat d2 (regexp.Cat (lit "T") (regexp.Cat d2
      (regexp.Cat (lit ":") (regexp.Cat d2 (regexp.Cat (lit ":") (regexp.Cat d2
      (lit "Z")))))))))))))
    s.

(** Every external call succeeds; [range] follows [map_to_list]. *)
Definition world_ok : World :=
  {| LoadDefaultConfig := None;
     http_Do := fun _ => inr {| StatusCode := 200; Status := "200 OK" |};
     dynamo_UpdateItem := fun _ => None;
     time_Now := "2025-03-01T12:00:00Z";
     uuid_New := "123e4567-e89b-12d3-a456-426614174000";
     time_Parse_RFC3339 := sample_time_Parse;
     map_range := map_to_list |}.

(** As [world_ok], but [range] visits the entries in the opposite order. *)
Definition world_reversed : World :=
  {| LoadDefaultConfig := None;
     http_Do := fun _ => inr {| StatusCode := 200; Status := "200 OK" |};
     dynamo_UpdateItem := fun _ => None;
     time_Now := "2025-03-01T12:00:00Z";
     uuid_New := "123e4567-e89b-12d3-a456-426614174000";
     time_Parse_RFC3339 := sample_time_Parse;
     map_range := fun m => reverse (map_to_list m) |}.

(** The record service answers with HTTP 500. *)
Definition world_http500 : World :=
  {| LoadDefaultConfig := None;
     http_Do := fun _ =>
       inr {| StatusCode := 500; Status := "500 Internal Server Error" |};
     dynamo_UpdateItem := fun _ => None;
     time_Now := "2025-03-01T12:00:00Z";
     uuid_New := "123e4567-e89b-12d3-a456-426614174000";
     time_Parse_RFC3339 := sample_time_Parse;
     map_range := map_to_list |}.

(** The AWS configuration cannot be loaded. *)
Definition world_noconfig : World :=
  {| LoadDefaultConfig := Some "invalid configuration";
     http_Do := fun _ => inr {| StatusCode := 200; Status := "200 OK" |};
     dynamo_UpdateItem := fun _ => None;
     time_Now := "2025-03-01T12:00:00Z";
     uuid_New := "123e4567-e89b-12d3-a456-426614174000";
     time_Parse_RFC3339 := sample_time_Parse;
     map_range := map_to_list |}.

(** DynamoDB rejects the update. *)
Definition world_dynamo_down : World :=
  {| LoadDefaultConfig := None;
     http_Do := fun _ => inr {| StatusCode := 200; Status := "200 OK" |};
     dynamo_UpdateItem := fun _ => Some "connection reset";
     time_Now := "2025-03-01T12:00:00Z";
     uuid_New := "123e4567-e89b-12d3-a456-426614174000";
     time_Parse_RFC3339 := sample_time_Parse;
     map_range := map_to_list |}.

Definition emptyProfile : UserProfile :=
  {| NSID := ""; DisplayName := ""; Bio := ""; ProfilePicture := "";
     ProfileBanner := ""; Theme := ""; PrimaryColor := "";
     SecondaryColor := ""; UpdatedAt := "" |}.

Definition aliceProfile : UserProfile :=
  {| NSID := "social.shareframe.profile"; DisplayName := "Alice";
     Bio := "Hello"; ProfilePicture := ""; ProfileBanner := "";
     Theme := "dark"; PrimaryColor := ""; SecondaryColor := "";
     UpdatedAt := "2025-03-01T12:00:00Z" |}.

Definition aliceRequest : RequestPayload :=
  {| Repo := "user123"; Profile := aliceProfile; BearerToken := "token" |}.


(** ** Vocabulary of the properties *)

(** The rules of [handler.validateProfile], in the order of the source:
    the condition under which a rule is violated, and its reason. *)
Definition rules (w : World) : list ((UserProfile -> bool) * string) :=
  [ (fun p => bool_decide (NSID p ≠ "social.shareframe.profile"),
     "invalid NSID: only social.shareframe.profile is allowed");
    (fun p => bool_decide (DisplayName p = ""),
     "displayName must be present");
    (fun p => bool_decide (256 < String.length (Bio p)),
     "bio must be 256 characters or fewer");
    (fun p => bool_decide (Theme p ≠ "") && bool_decide (Theme p ≠ "light") &&
              bool_decide (Theme p ≠ "dark") && bool_decide (Theme p ≠ "custom"),
     "theme must be light, dark, or custom");
    (fun p => negb (time_Parse_RFC3339 w (UpdatedAt p)),
     "invalid datetime format for updatedAt") ].

(** The reasons of the rules a profile violates, in rule order. *)
Definition violated (rs : list ((UserProfile -> bool) * string))
    (p : UserProfile) : list string :=
  (List.filter (fun r => r.1 p) rs).*2.

(** The message of the aggregated validation error. *)
Definition aggregated (reasons : list string) : string :=
  "profile validation failed: " +:+ strings.Join reasons "; ".

(** The seven optional fields [buildUpdateExpression] looks at, in the
    order of its map literal. *)
Definition fieldList (p : UserProfile) : list (string * string) :=
  [ ("DisplayName", DisplayName p);
    ("Bio", Bio p);
    ("ProfilePicture", ProfilePicture p);
    ("ProfileBanner", ProfileBanner p);
    ("Theme", Theme p);
    ("PrimaryColor", PrimaryColor p);
    ("SecondaryColor", SecondaryColor p) ].

Definition nonempty (kv : string * string) : Prop := kv.2 ≠ "".

#[global] Instance nonempty_dec kv : Decision (nonempty kv).
Proof. unfold nonempty. apply _. Defined.

(** The non-empty optional fields of a profile. *)
Definition populated (p : UserProfile) : list (string * string) :=
  filter nonempty (fieldList p).

(** The clause ["<Field> = :<Field>"]. *)
Definition clause (field : string) : string := field +:+ " = :" +:+ field.

Definition timestampClause : string := "UpdatedAt = :UpdatedAt".

Definition allOptionalEmpty (p : UserProfile) : Prop :=
  DisplayName p = "" /\ Bio p = "" /\ ProfilePicture p = "" /\
  ProfileBanner p = "" /\ Theme p = "" /\ PrimaryColor p = "" /\
  SecondaryColor p = "".

(** A profile with other picture and banner URLs. *)
Definition withPictures (picture banner : string) (p : UserProfile)
    : UserProfile :=
  {| NSID := NSID p; DisplayName := DisplayName p; Bio := Bio p;
     ProfilePicture := picture; ProfileBanner := banner;
     Theme := Theme p; PrimaryColor := PrimaryColor p;
     SecondaryColor := SecondaryColor p; UpdatedAt := UpdatedAt p |}.

(** A profile with other primary and secondary colours. *)
Definition withColors (primary secondary : string) (p : UserProfile)
    : UserProfile :=
  {| NSID := NSID p; DisplayName := DisplayName p; Bio := Bio p;
     ProfilePicture := ProfilePicture p; ProfileBanner := ProfileBanner p;
     Theme := Theme p; PrimaryColor := primary;
     SecondaryColor := secondary; UpdatedAt := UpdatedAt p |}.

(** The events of a trace that are writes to DynamoDB. *)
Definition isUpdateItem (e : Event) : bool :=
  match e with EvUpdateItem _ => true | _ => false end.

(** The events of a trace that are requests to the record service. *)
Definition isHttpDo (e : Event) : bool :=
  match e with EvHttpDo _ => true | _ => false end.

(** The record service accepted the request: HTTP 200. *)
Definition recordAccepted (w : World) (req : Request) : Prop :=
  exists resp, http_Do w req = inr resp /\ StatusCode resp = StatusOK.

(** ** The revision of package [handler] with a typed response

    The repository keeps a second revision of the handler, which fails at
    once on a wrong NSID, checks URLs and colours with [urlRegex] and
    [hexColorRegex], does not require a display name, and answers with
    [models.UpdateProfileResponse].  Its [UserProfile],
    [updateProfileInATProtocol], [isValidURL] and [isValidHexColor] are
    those of [models] and [handler] above, text for text. *)

Module models_typed.

Record RequestPayload : Type := {
  DID : string;
  Profile : UserProfile;
  AuthToken : string
}.

Record UpdateProfileResponse : Type := {
  Message : string;
  Success : bool
}.

End models_typed.

Module handler_typed.

(** The map literal [validations]: reason to check, the checks being
    closures over the profile. *)
Definition validations (profile : UserProfile) : gmap string (unit -> bool) :=
  {[ "bio must be 256 characters or fewer" :=
       (fun _ : unit => bool_decide (256 < String.length (Bio profile)));
     "invalid profilePicture URL" :=
       (fun _ : unit => bool_decide (ProfilePicture profile ≠ "") &&
                        negb (handler.isValidURL (ProfilePicture profile)));
     "invalid profileBanner URL" :=
       (fun _ : unit => bool_decide (ProfileBanner profile ≠ "") &&
                        negb (handler.isValidURL (ProfileBanner profile)));
     "theme must be 'light', 'dark', or 'custom'" :=
       (fun _ : unit => bool_decide (Theme profile ≠ "") &&
                        bool_decide (Theme profile ≠ "light") &&
                        bool_decide (Theme profile ≠ "dark") &&
                        bool_decide (Theme profile ≠ "custom"));
     "primaryColor must be a valid hex code (e.g., #RRGGBB or #RGB)" :=
       (fun _ : unit => bool_decide (PrimaryColor profile ≠ "") &&
                        negb (handler.isValidHexColor (PrimaryColor profile)));
     "secondaryColor must be a valid hex code (e.g., #RRGGBB or #RGB)" :=
       (fun _ : unit => bool_decide (SecondaryColor profile ≠ "") &&
                        negb (handler.isValidHexColor (SecondaryColor profile))) ]}.

(** One iteration of [for errMsg, check := range validations]. *)
Definition range_body (validationErrors : list string)
    (kv : string * (unit -> bool)) : list string :=
  let '(errMsg, check) := kv in
  if check tt then validationErrors ++ [errMsg] else validationErrors.

(** [range_validations] is the order in which the runtime ranges over
    [validations]. *)
Definition validateProfile
    (range_validations :
       gmap string (unit -> bool) -> list (string * (unit -> bool)))
    (w : World) (profile : UserProfile) : option error :=
  if bool_decide (NSID profile ≠ "social.shareframe.profile") then
    Some "profile validation failed: invalid NSID: only 'social.shareframe.profile' is allowed"
  else
    let validationErrors :=
      foldl range_body [] (range_validations (validations profile)) in
    let validationErrors :=
      if bool_decide (UpdatedAt profile = "") then
        validationErrors ++ ["updatedAt is required"]
      else if negb (time_Parse_RFC3339 w (UpdatedAt profile)) then
        validationErrors ++ ["invalid datetime format for updatedAt"]
      else validationErrors in
    if bool_decide (0 < length validationErrors) then
      Some ("profile validation failed: " +:+ strings.Join validationErrors "; ")
    else None.

Definition HandleRequest
    (range_validations :
       gmap string (unit -> bool) -> list (string * (unit -> bool)))
    (w : World) (request : models_typed.RequestPayload)
    : IO (models_typed.UpdateProfileResponse * option error) :=
  r ← dynamodb.NewDynamoClient w;
  match r with
  | inl err =>
      mret ({| models_typed.Message := "Internal server error";
               models_typed.Success := false |}, Some err)
  | inr dynamoClient =>
      let profile := models_typed.Profile request in
      match validateProfile range_validations w profile with
      | Some err =>
          mret ({| models_typed.Message := "Profile validation failed";
                   models_typed.Success := false |}, None)
      | None =>
          '(_, err) ← handler.updateProfileInATProtocol w
                        (models_typed.DID request) profile
                        (models_typed.AuthToken request) false;
          match err with
          | Some err =>
              mret ({| models_typed.Message := "Failed to update profile in AT Protocol";
                       models_typed.Success := false |}, Some err)
          | None =>
              err ← dynamodb.UpdateUserInDynamoDB w dynamoClient
                      (models_typed.DID request) profile;
              match err with
              | Some err =>
                  mret ({| models_typed.Message := "Failed to update profile in database";
                           models_typed.Success := false |}, Some err)
              | None =>
                  mret ({| models_typed.Message := "Profile updated successfully";
                           models_typed.Success := true |}, None)
              end
          end
      end
  end.

End handler_typed.

(** ** Vocabulary of the further properties *)

(** The language of a regular expression. *)
Inductive matches : regexp.Regexp -> string -> Prop :=
| matches_Eps : matches regexp.Eps ""
| matches_Class p c : p c = true -> matches (regexp.Class p) (String c "")
| matches_Cat r1 r2 s1 s2 :
    matches r1 s1 -> matches r2 s2 -> matches (regexp.Cat r1 r2) (s1 +:+ s2)
| matches_Alt_l r1 r2 s : matches r1 s -> matches (regexp.Alt r1 r2) s
| matches_Alt_r r1 r2 s : matches r2 s -> matches (regexp.Alt r1 r2) s
| matches_Star_nil r : matches (regexp.Star r) ""
| matches_Star_cons r s1 s2 :
    matches r s1 -> matches (regexp.Star r) s2 ->
    matches (regexp.Star r) (s1 +:+ s2).

(** Every byte of [s] satisfies [f]. *)
Fixpoint allChars (f : ascii -> bool) (s : string) : bool :=
  match s with
  | EmptyString => true
  | String c s' => f c && allChars f s'
  end.

(** The request [updateProfileInATProtocol] sends. *)
Definition putRecordRequest (w : World) (repo : string) (profile : UserProfile)
    (bearerToken : string) (validate : bool) : Request :=
  {| Method := "POST";
     URL := "https://shareframe.social/xrpc/com.atproto.repo.putRecord";
     Header := {[ "Authorization" := "Bearer " +:+ bearerToken;
                  "Content-Type" := "application/json" ]};
     Body := {| body_repo := repo;
                body_collection := "social.shareframe.profile";
                body_rkey := uuid_New w;
                body_validate := validate;
                body_record := profile |} |}.

(** The input of the [UpdateItem] call of [UpdateUserInDynamoDB]. *)
Definition updateItemInput (w : World) (userID : string) (profile : UserProfile)
    : UpdateItemInput :=
  {| TableName := "Users";
     Key := {[ "UserId" := AttributeValueMemberS userID ]};
     UpdateExpression := "SET " +:+ (dynamodb.buildUpdateExpression w profile).1;
     ExpressionAttributeValues := (dynamodb.buildUpdateExpression w profile).2;
     ReturnValues := ReturnValueUpdatedNew |}.

(** The client [NewDynamoClient] returns on success. *)
Definition realClient (w : World) : dynamodb.DynamoClient :=
  {| dynamodb.Client := dynamodb.NewFromConfig w |}.

(** The entries of [handler_typed.validations], in the order of the
    literal. *)
Definition validationList (p : UserProfile) : list (string * (unit -> bool)) :=
  [ ("bio must be 256 characters or fewer",
     fun _ => bool_decide (256 < String.length (Bio p)));
    ("invalid profilePicture URL",
     fun _ => bool_decide (ProfilePicture p ≠ "") &&
              negb (handler.isValidURL (ProfilePicture p)));
    ("invalid profileBanner URL",
     fun _ => bool_decide (ProfileBanner p ≠ "") &&
              negb (handler.isValidURL (ProfileBanner p)));
    ("theme must be 'light', 'dark', or 'custom'",
     fun _ => bool_decide (Theme p ≠ "") && bool_decide (Theme p ≠ "light") &&
              bool_decide (Theme p ≠ "dark") && bool_decide (Theme p ≠ "custom"));
    ("primaryColor must be a valid hex code (e.g., #RRGGBB or #RGB)",
     fun _ => bool_decide (PrimaryColor p ≠ "") &&
              negb (handler.isValidHexColor (PrimaryColor p)));
    ("secondaryColor must be a valid hex code (e.g., #RRGGBB or #RGB)",
     fun _ => bool_decide (SecondaryColor p ≠ "") &&
              negb (handler.isValidHexColor (SecondaryColor p))) ].

(** [range] over [validations] visits every entry exactly once. *)
Definition range_validations_ok
    (rng : gmap string (unit -> bool) -> list (string * (unit -> bool))) : Prop :=
  forall m, rng m ≡ₚ map_to_list m.

(** A typed request around [aliceProfile]. *)
Definition aliceTypedRequest : models_typed.RequestPayload :=
  {| models_typed.DID := "user123"; models_typed.Profile := aliceProfile;
     models_typed.AuthToken := "token" |}.


(** How [UpdateUserInDynamoDB] hands on the result of [UpdateItem]. *)
Definition wrapStoreError (r : option error) : option error :=
  match r with
  | Some e => Some ("failed to update user in DynamoDB: " +:+ e)
  | None => None
  end.

(** The check of an entry of [validations] finds a violation. *)
Definition checkFails (kv : string * (unit -> bool)) : Prop := kv.2 tt = true.

#[global] Instance checkFails_dec kv : Decision (checkFails kv).
Proof. unfold checkFails. apply _. Defined.

(** The reason the typed revision gives for the timestamp, if any. *)
Definition timestampReasons (w : World) (p : UserProfile) : list string :=
  if bool_decide (UpdatedAt p = "") then ["updatedAt is required"]
  else if time_Parse_RFC3339 w (UpdatedAt p) then []
  else ["invalid datetime format for updatedAt"].

(** The five messages of the typed revision's response. *)
Definition typedMessages : list string :=
  [ "Internal server error"; "Profile validation failed";
    "Failed to update profile in AT Protocol";
    "Failed to update profile in database"; "Profile updated successfully" ].


(** What [updateProfileInATProtocol] makes of the result of the HTTP
    round trip. *)
Definition recordOutcome (r : error + Response) : string * option error :=
  match r with
  | inl err => ("", Some err)
  | inr resp =>
      if bool_decide (StatusCode resp ≠ StatusOK)
      then ("", Some ("failed to update profile: " +:+ Status resp))
      else ("Profile successfully updated", None)
  end.

(** The payload of a successful invocation. *)
Definition successPayload : gmap string string :=
  {[ "message" := "Profile updated successfully";
     "response" := "Profile successfully updated" ]}.


(** The number of characters of a UTF-8 string: the bytes that are not
    continuation bytes (10xxxxxx). *)
Fixpoint utf8_chars (s : string) : nat :=
  match s with
  | EmptyString => 0
  | String c s' =>
      (if regexp.between "128" "191" c then 0 else 1) + utf8_chars s'
  end.

(** The rule list of section 4.1 of the specification, in its words and
    its order: the schema tag equals the fixed constant; the bio has at
    most 256 characters; the profile picture URL, if non-empty, has the
    URL shape; the profile banner URL likewise; the theme, if non-empty,
    is one of light, dark, custom; primary and secondary colour, if
    non-empty, have the hex colour shape; the update timestamp is present
    and parses as RFC 3339.  Each entry is the condition under which the
    rule is violated, and a name for it. *)
Definition specRules (w : World) : list ((UserProfile -> bool) * string) :=
  [ (fun p => bool_decide (NSID p ≠ "social.shareframe.profile"),
     "schema tag");
    (fun p => bool_decide (256 < utf8_chars (Bio p)),
     "bio length");
    (fun p => bool_decide (ProfilePicture p ≠ "") &&
              negb (handler.isValidURL (ProfilePicture p)),
     "profile picture URL");
    (fun p => bool_decide (ProfileBanner p ≠ "") &&
              negb (handler.isValidURL (ProfileBanner p)),
     "profile banner URL");
    (fun p => bool_decide (Theme p ≠ "") && bool_decide (Theme p ≠ "light") &&
              bool_decide (Theme p ≠ "dark") && bool_decide (Theme p ≠ "custom"),
     "theme");
    (fun p => (bool_decide (PrimaryColor p ≠ "") &&
               negb (handler.isValidHexColor (PrimaryColor p))) ||
              (bool_decide (SecondaryColor p ≠ "") &&
               negb (handler.isValidHexColor (SecondaryColor p))),
     "primary/secondary color");
    (fun p => bool_decide (UpdatedAt p = "") ||
              negb (time_Parse_RFC3339 w (UpdatedAt p)),
     "update timestamp") ].


(** * Properties *)

(** ** Strings *)

Section string_facts.

Implicit Types s t u sep : string.

Lemma append_cons c s t : String c s +:+ t = String c (s +:+ t).
Proof. reflexivity. Qed.

Lemma append_nil_l s : "" +:+ s = s.
Proof. reflexivity. Qed.

Lemma append_assoc s t u : (s +:+ t) +:+ u = s +:+ t +:+ u.
Proof.
  induction s as [|c s IH]; [done |].
  by rewrite !append_cons, IH.
Qed.

Lemma append_nil_r s : s +:+ "" = s.
Proof.
  induction s as [|c s IH]; [done |].
  by rewrite append_cons, IH.
Qed.

Lemma HasPrefix_append s t : strings.HasPrefix (s +:+ t) s = true.
Proof.
  induction s as [|c s IH]; [by destruct t |].
  rewrite append_cons; simpl. by rewrite Ascii.eqb_refl.
Qed.

Lemma Contains_cons c s x :
  strings.Contains s x = true -> strings.Contains (String c s) x = true.
Proof. intros H; simpl. rewrite H. apply orb_true_r. Qed.

Lemma Contains_HasPrefix s x :
  strings.HasPrefix s x = true -> strings.Contains s x = true.
Proof. intros H. destruct s; simpl in *; by rewrite H. Qed.

Lemma Contains_append pre s post :
  strings.Contains (pre +:+ s +:+ post) s = true.
Proof.
  induction pre as [|c pre IH].
  - rewrite append_nil_l. apply Contains_HasPrefix, HasPrefix_append.
  - rewrite append_cons. by apply Contains_cons.
Qed.

(** Every element of a joined list occurs in the result. *)
Lemma Join_split x (elems : list string) sep :
  x ∈ elems ->
  exists pre post, strings.Join elems sep = pre +:+ x +:+ post.
Proof.
  induction elems as [|y elems IH]; [by intros ?%elem_of_nil |].
  intros [->|Hx]%elem_of_cons.
  - exists "". destruct elems as [|z elems]; simpl.
    + exists "". by rewrite append_nil_r.
    + by eexists.
  - destruct (IH Hx) as (pre & post & E).
    destruct elems as [|z elems]; [by apply elem_of_nil in Hx |].
    exists (y +:+ sep +:+ pre), post.
    change (strings.Join (y :: z :: elems) sep)
      with (y +:+ sep +:+ strings.Join (z :: elems) sep).
    by rewrite E, !append_assoc.
Qed.

Lemma Join_Contains x (elems : list string) sep :
  x ∈ elems -> strings.Contains (strings.Join elems sep) x = true.
Proof.
  intros (pre & post & ->)%(Join_split _ _ sep). apply Contains_append.
Qed.

Lemma Contains_prefixed p s x :
  strings.Contains s x = true -> strings.Contains (p +:+ s) x = true.
Proof.
  intros H. induction p as [|c p IH]; [done |].
  rewrite append_cons. by apply Contains_cons.
Qed.

End string_facts.


(** ** The validator *)

Section validator.

Variable w : World.
Implicit Types p : UserProfile.

(** [validateProfile] walks the rule table: its error is the aggregate of
    the reasons of all violated rules, and it is nil when there is none. *)
Lemma validateProfile_violated p :
  handler.validateProfile w p =
    match violated (rules w) p with
    | [] => None
    | reasons => Some (aggregated reasons)
    end.
Proof.
  unfold handler.validateProfile, violated, rules, handler.appendIf.
  cbn [List.filter fst snd].
  repeat match goal with
         | |- context [if ?b then _ else _] =>
             lazymatch b with
             | bool_decide (0 < _) => fail
             | _ => destruct b
             end
         end; reflexivity.
Qed.

Lemma violated_elem_of rule p :
  rule ∈ rules w -> rule.1 p = true -> rule.2 ∈ violated (rules w) p.
Proof.
  intros Hin Hv. unfold violated.
  apply list_elem_of_fmap. exists rule. split; [done |].
  apply list_elem_of_In, filter_In. by rewrite <- list_elem_of_In.
Qed.

Lemma validateProfile_reports rule p :
  rule ∈ rules w -> rule.1 p = true ->
  exists msg, handler.validateProfile w p = Some msg /\
              strings.Contains msg rule.2 = true.
Proof.
  intros Hin Hv. pose proof (violated_elem_of _ _ Hin Hv) as Hel.
  rewrite validateProfile_violated.
  destruct (violated (rules w) p) as [|r rs] eqn:E; [by apply elem_of_nil in Hel |].
  eexists; split; [done |].
  apply Contains_prefixed, Join_Contains, Hel.
Qed.

Lemma validateProfile_passes p :
  (forall rule, rule ∈ rules w -> rule.1 p = false) ->
  handler.validateProfile w p = None.
Proof.
  intros Hall. rewrite validateProfile_violated.
  destruct (violated (rules w) p) as [|r rs] eqn:E; [done |].
  assert (r ∈ violated (rules w) p) as Hr by (rewrite E; left).
  unfold violated in Hr. apply list_elem_of_fmap in Hr as (rule & _ & Hr).
  apply list_elem_of_In, filter_In in Hr as [Hin Hv].
  apply list_elem_of_In in Hin. by rewrite (Hall _ Hin) in Hv.
Qed.

End validator.

(** ** The expression builder *)

Section builder.

Implicit Types (p : UserProfile) (kvs : list (string * string)).
Implicit Types (parts : list string) (vals : gmap string AttributeValue).

Lemma colon_inj (f g : string) : ":" +:+ f = ":" +:+ g -> f = g.
Proof. change (String ":" f = String ":" g -> f = g). by intros [= ->]. Qed.

(** The map literal holds exactly the seven entries of [fieldList]. *)
Lemma fields_to_list p : map_to_list (dynamodb.fields p) ≡ₚ fieldList p.
Proof.
  unfold dynamodb.fields, fieldList.
  repeat (rewrite map_to_list_insert; [apply Permutation_skip | by vm_compute]).
  by rewrite map_to_list_singleton.
Qed.

Lemma range_fields w p :
  range_ok w -> map_range w (dynamodb.fields p) ≡ₚ fieldList p.
Proof. intros Hw. etrans; [apply Hw | apply fields_to_list]. Qed.

(** The clauses collected by the loop: one per non-empty entry, in the
    order of the visit. *)
Lemma foldl_range_body_parts kvs parts vals :
  (foldl dynamodb.range_body (parts, vals) kvs).1 =
    parts ++ (clause <$> (filter nonempty kvs).*1).
Proof.
  revert parts vals.
  induction kvs as [|[f v] kvs IH]; intros parts vals; simpl.
  - by rewrite app_nil_r.
  - rewrite filter_cons. unfold nonempty at 1; simpl.
    case_bool_decide as Hv; rewrite IH; destruct (decide _); try done.
    by rewrite <- app_assoc.
Qed.

(** The loop leaves every key alone that is not [":" + field] for a
    visited field. *)
Lemma foldl_range_body_lookup kvs parts vals k :
  (forall f, f ∈ kvs.*1 -> k ≠ ":" +:+ f) ->
  (foldl dynamodb.range_body (parts, vals) kvs).2 !! k = vals !! k.
Proof.
  revert parts vals.
  induction kvs as [|[f v] kvs IH]; intros parts vals Hk; simpl; [done |].
  assert (forall g, g ∈ kvs.*1 -> k ≠ ":" +:+ g) as Hk'
    by (intros g Hg; apply Hk; by right).
  case_bool_decide; rewrite IH by done; [|done].
  apply lookup_insert_ne. intros E. by apply (Hk f); [left |].
Qed.

(** Distinct fields give distinct bindings. *)
Lemma foldl_range_body_size kvs parts vals :
  NoDup kvs.*1 ->
  (forall f, f ∈ kvs.*1 -> vals !! (":" +:+ f) = None) ->
  size (foldl dynamodb.range_body (parts, vals) kvs).2 =
    size vals + length (filter nonempty kvs).
Proof.
  revert parts vals.
  induction kvs as [|[f v] kvs IH]; intros parts vals Hnd Hfresh; simpl.
  - by rewrite Nat.add_0_r.
  - apply NoDup_cons in Hnd as [Hf Hnd].
    rewrite filter_cons. unfold nonempty at 1; simpl.
    case_bool_decide as Hv.
    + destruct (decide _); [|done]. rewrite IH; [|done|].
      * rewrite map_size_insert_None by (apply Hfresh; by left).
        simpl. lia.
      * intros g Hg. rewrite lookup_insert_ne.
        -- apply Hfresh. by right.
        -- intros E%colon_inj. by subst.
    + destruct (decide _); [done|]. apply IH; [done |].
      intros g Hg. apply Hfresh. by right.
Qed.

Lemma fieldList_keys p :
  (fieldList p).*1 =
    ["DisplayName"; "Bio"; "ProfilePicture"; "ProfileBanner"; "Theme";
     "PrimaryColor"; "SecondaryColor"].
Proof. reflexivity. Qed.

Lemma populated_nil p : populated p = [] <-> allOptionalEmpty p.
Proof.
  unfold populated, allOptionalEmpty, fieldList.
  split.
  - intros H.
    repeat split;
      match goal with
      | |- ?v = "" =>
          destruct (decide (v = "")) as [|Hne]; [done | exfalso];
          eapply (filter_nil_not_elem_of _ _ (_, v) H); [exact Hne |];
          repeat first [by left | right]
      end.
  - intros (-> & -> & -> & -> & -> & -> & ->). reflexivity.
Qed.

Section with_world.

Variable w : World.
Hypothesis Hw : range_ok w.

(** What the builder returns, for an arbitrary admissible visiting order. *)
Lemma buildUpdateExpression_eq p :
  exists vals,
    dynamodb.buildUpdateExpression w p =
      (strings.Join
         ((clause <$> (filter nonempty (map_range w (dynamodb.fields p))).*1)
            ++ [timestampClause]) ", ",
       <[":UpdatedAt" := AttributeValueMemberS (time_Now w)]> vals) /\
    vals !! ":UpdatedAt" = None /\
    size vals = length (populated p).
Proof.
  unfold dynamodb.buildUpdateExpression.
  pose proof (range_fields w p Hw) as Hperm.
  set (kvs := map_range w (dynamodb.fields p)) in *.
  pose proof (foldl_range_body_parts kvs [] ∅) as Hparts.
  pose proof (foldl_range_body_lookup kvs [] ∅ ":UpdatedAt") as Hlook.
  pose proof (foldl_range_body_size kvs [] ∅) as Hsize.
  destruct (foldl dynamodb.range_body ([], ∅) kvs) as [parts vals].
  simpl in *. exists vals. split; [by rewrite Hparts |]. split.
  - rewrite Hlook; [done |].
    intros f Hf. rewrite Hperm, fieldList_keys in Hf.
    intros E. assert (f = "UpdatedAt") as -> by (symmetry; by apply colon_inj).
    clear -Hf.
    repeat (apply elem_of_cons in Hf as [Hf|Hf]; [done |]).
    by apply elem_of_nil in Hf.
  - rewrite Hsize, map_size_empty; [| |done].
    + unfold populated. by rewrite Hperm.
    + rewrite Hperm, fieldList_keys. compute_done.
Qed.

End with_world.

End builder.

Section builder_claims.

Implicit Types p : UserProfile.

Lemma populated_clauses_NoDup p : NoDup (clause <$> (populated p).*1).
Proof.
  assert (clause <$> (populated p).*1 `sublist_of` clause <$> (fieldList p).*1)
    as Hsub by (unfold populated; apply fmap_sublist, fmap_sublist, sublist_filter).
  refine (sublist_NoDup _ _ _ Hsub).
  rewrite fieldList_keys. compute_done.
Qed.

Lemma world_ok_range_ok : range_ok world_ok.
Proof. by intros m. Qed.

Lemma world_reversed_range_ok : range_ok world_reversed.
Proof. intros m. apply reverse_Permutation. Qed.

Lemma aliceProfile_populated : ¬ allOptionalEmpty aliceProfile.
Proof. by intros [? _]. Qed.

(** C3, as amended: for a profile with at least one non-empty optional
    field, the binding map has (number of non-empty optional fields) + 1
    entries, and the expression is the [", "]-join of exactly one clause
    ["<Field> = :<Field>"] per populated field, in the order in which the
    runtime visits the map (some permutation of the populated fields),
    followed by the clause ["UpdatedAt = :UpdatedAt"]; each of these
    clauses occurs in the expression. *)
Theorem buildUpdateExpression_populated (w : World) (p : UserProfile) :
  range_ok w ->
  ¬ allOptionalEmpty p ->
  size (dynamodb.buildUpdateExpression w p).2 = length (populated p) + 1 /\
  (exists parts,
     parts ≡ₚ clause <$> (populated p).*1 /\
     NoDup parts /\
     (dynamodb.buildUpdateExpression w p).1 =
       strings.Join (parts ++ [timestampClause]) ", ") /\
  (forall kv, kv ∈ populated p ->
     strings.Contains (dynamodb.buildUpdateExpression w p).1 (clause kv.1) = true) /\
  strings.Contains (dynamodb.buildUpdateExpression w p).1 timestampClause = true.
Proof.
  intros Hw _.
  destruct (buildUpdateExpression_eq w Hw p) as (vals & -> & Hfresh & Hsize).
  pose proof (range_fields w p Hw) as Hperm. simpl.
  set (parts := clause <$> (filter nonempty (map_range w (dynamodb.fields p))).*1).
  assert (parts ≡ₚ clause <$> (populated p).*1) as Hparts
    by (unfold parts, populated; by rewrite Hperm).
  split; [|split; [|split]].
  - rewrite map_size_insert_None by done. lia.
  - exists parts. split; [done |]. split; [|done].
    rewrite Hparts. apply populated_clauses_NoDup.
  - intros kv Hkv. apply Join_Contains, elem_of_app. left.
    rewrite Hparts. apply list_elem_of_fmap. exists kv.1. split; [done |].
    apply list_elem_of_fmap. by exists kv.
  - apply Join_Contains, elem_of_app. right. by left.
Qed.

Lemma buildUpdateExpression_populated_witness :
  range_ok world_ok /\ ¬ allOptionalEmpty aliceProfile /\
  size (dynamodb.buildUpdateExpression world_ok aliceProfile).2 =
    length (populated aliceProfile) + 1.
Proof.
  split; [exact world_ok_range_ok |]. split; [exact aliceProfile_populated |].
  exact (proj1 (buildUpdateExpression_populated world_ok aliceProfile
                  world_ok_range_ok aliceProfile_populated)).
Defined.

(** C3, as stated, fails: the order of the field clauses is not fixed.
    The same profile, ranged over in two admissible orders, gives two
    different expressions. *)
Lemma buildUpdateExpression_order_not_fixed :
  range_ok world_ok /\ range_ok world_reversed /\
  ¬ allOptionalEmpty aliceProfile /\
  (dynamodb.buildUpdateExpression world_ok aliceProfile).1 =
    "Bio = :Bio, Theme = :Theme, DisplayName = :DisplayName, UpdatedAt = :UpdatedAt" /\
  (dynamodb.buildUpdateExpression world_reversed aliceProfile).1 =
    "DisplayName = :DisplayName, Theme = :Theme, Bio = :Bio, UpdatedAt = :UpdatedAt" /\
  (dynamodb.buildUpdateExpression world_ok aliceProfile).1 ≠
    (dynamodb.buildUpdateExpression world_reversed aliceProfile).1.
Proof.
  split; [exact world_ok_range_ok |].
  split; [exact world_reversed_range_ok |].
  split; [exact aliceProfile_populated |].
  split; [by vm_compute |]. split; [by vm_compute |].
  by vm_compute.
Qed.

(** C8: when every optional field is empty, the expression is exactly
    ["UpdatedAt = :UpdatedAt"] and the binding map has size 1 and holds
    the key [":UpdatedAt"]; for every profile the binding map holds
    [":UpdatedAt"], and it has size 1 exactly when no optional field is
    populated. *)
Theorem buildUpdateExpression_timestamp_only (w : World) (p : UserProfile) :
  range_ok w ->
  (allOptionalEmpty p ->
     (dynamodb.buildUpdateExpression w p).1 = "UpdatedAt = :UpdatedAt" /\
     size (dynamodb.buildUpdateExpression w p).2 = 1 /\
     (dynamodb.buildUpdateExpression w p).2 =
       {[ ":UpdatedAt" := AttributeValueMemberS (time_Now w) ]}) /\
  (dynamodb.buildUpdateExpression w p).2 !! ":UpdatedAt" =
     Some (AttributeValueMemberS (time_Now w)) /\
  (size (dynamodb.buildUpdateExpression w p).2 = 1 <-> allOptionalEmpty p).
Proof.
  intros Hw.
  destruct (buildUpdateExpression_eq w Hw p) as (vals & -> & Hfresh & Hsize).
  pose proof (range_fields w p Hw) as Hperm. simpl.
  split; [|split].
  - intros Hempty%populated_nil.
    rewrite Hempty in Hsize. apply map_size_empty_inv in Hsize as ->.
    assert (filter nonempty (map_range w (dynamodb.fields p)) = []) as ->.
    { apply Permutation_nil_r. rewrite Hperm. by fold (populated p); rewrite Hempty. }
    split; [done |]. split; [|done].
    by rewrite insert_empty, map_size_singleton.
  - apply lookup_insert_eq.
  - rewrite map_size_insert_None, Hsize, <- populated_nil by done.
    destruct (populated p); simpl; split; (done || lia).
Qed.

Lemma buildUpdateExpression_timestamp_only_witness :
  range_ok world_ok /\ allOptionalEmpty emptyProfile /\
  (dynamodb.buildUpdateExpression world_ok emptyProfile).1 =
    "UpdatedAt = :UpdatedAt" /\
  size (dynamodb.buildUpdateExpression world_ok emptyProfile).2 = 1.
Proof.
  assert (allOptionalEmpty emptyProfile) as He by (by repeat split).
  split; [exact world_ok_range_ok |]. split; [exact He |].
  destruct (buildUpdateExpression_timestamp_only world_ok emptyProfile
              world_ok_range_ok) as [H _].
  destruct (H He) as (H1 & H2 & _). by split.
Defined.

End builder_claims.

(** ** The store client *)

(** Unfold the trace monad. *)
Ltac io_unfold :=
  unfold run, mbind, IO_bind, mret, IO_ret, emit; simpl.

Section store_client.

Variable w : World.
Implicit Types (p : UserProfile) (t : Trace).

(** The guard on the user id comes before everything else, for any client. *)
Lemma UpdateUserInDynamoDB_empty_userID d p t :
  dynamodb.UpdateUserInDynamoDB w d "" p t = (Some "userID cannot be empty", t).
Proof. reflexivity. Qed.

(** C9: with an empty user id the call fails with "userID cannot be empty"
    and the trace is unchanged; otherwise, when the binding map has only
    the timestamp binding (size 1), it fails with "no valid fields provided
    to update" and the trace is unchanged; otherwise exactly one
    [UpdateItem] is issued, and an error of that operation comes back
    wrapped as "failed to update user in DynamoDB: ...". *)
Theorem UpdateUserInDynamoDB_cases (userID : string) (p : UserProfile) (t : Trace) :
  let d := {| dynamodb.Client := dynamodb.NewFromConfig w |} in
  let r := dynamodb.UpdateUserInDynamoDB w d userID p t in
  let b := dynamodb.buildUpdateExpression w p in
  (userID = "" -> r = (Some "userID cannot be empty", t)) /\
  (userID ≠ "" -> size b.2 = 1 ->
     r = (Some "no valid fields provided to update", t)) /\
  (userID ≠ "" -> size b.2 ≠ 1 ->
     let input :=
       {| TableName := "Users";
          Key := {[ "UserId" := AttributeValueMemberS userID ]};
          UpdateExpression := "SET " +:+ b.1;
          ExpressionAttributeValues := b.2;
          ReturnValues := ReturnValueUpdatedNew |} in
     r.2 = t ++ [EvUpdateItem input] /\
     r.1 = match dynamo_UpdateItem w input with
           | Some e => Some ("failed to update user in DynamoDB: " +:+ e)
           | None => None
           end).
Proof.
  intros d r b. subst r b. unfold dynamodb.UpdateUserInDynamoDB.
  destruct (dynamodb.buildUpdateExpression w p) as [expr vals]. simpl.
  repeat split.
  - intros ->. reflexivity.
  - intros Hne Hsz. rewrite bool_decide_false, bool_decide_true; done.
  - rewrite bool_decide_false, bool_decide_false by done.
    subst d. io_unfold. by destruct (dynamo_UpdateItem w _).
  - rewrite bool_decide_false, bool_decide_false by done.
    subst d. io_unfold. by destruct (dynamo_UpdateItem w _).
Qed.

End store_client.

Lemma UpdateUserInDynamoDB_cases_witness :
  let d := {| dynamodb.Client := dynamodb.NewFromConfig world_dynamo_down |} in
  dynamodb.UpdateUserInDynamoDB world_dynamo_down d "" aliceProfile [] =
    (Some "userID cannot be empty", []) /\
  dynamodb.UpdateUserInDynamoDB world_dynamo_down d "user123" emptyProfile [] =
    (Some "no valid fields provided to update", []) /\
  (dynamodb.UpdateUserInDynamoDB world_dynamo_down d "user123" aliceProfile []).1 =
    Some "failed to update user in DynamoDB: connection reset".
Proof.
  intros d. split; [|split].
  - apply (UpdateUserInDynamoDB_cases world_dynamo_down "" aliceProfile []).
    reflexivity.
  - apply (UpdateUserInDynamoDB_cases world_dynamo_down "user123" emptyProfile []);
      by vm_compute.
  - destruct (UpdateUserInDynamoDB_cases world_dynamo_down "user123" aliceProfile [])
      as (_ & _ & H).
    destruct H as [_ H]; [by vm_compute | by vm_compute |]. exact H.
Defined.

(** ** The validator's claims *)

(** C6, as amended: [validateProfile] evaluates every one of its five
    implemented rules ([rules]: NSID, display name present, bio of at most
    256 bytes, theme, timestamp parses) without short-circuiting; its error
    is the one aggregate, after the prefix "profile validation failed: ",
    of the reasons of all violated rules among these five, joined with
    "; " in rule order, so the reason of every violated rule occurs in it;
    a profile that violates none of the five gets no error. *)
Theorem validateProfile_aggregates (w : World) (p : UserProfile) :
  handler.validateProfile w p =
    match violated (rules w) p with
    | [] => None
    | reasons => Some (aggregated reasons)
    end /\
  (forall rule, rule ∈ rules w -> rule.1 p = true ->
     exists msg, handler.validateProfile w p = Some msg /\
                 strings.Contains msg rule.2 = true) /\
  ((forall rule, rule ∈ rules w -> rule.1 p = false) ->
     handler.validateProfile w p = None).
Proof.
  split; [apply validateProfile_violated |].
  split; [intros rule; apply validateProfile_reports |].
  apply validateProfile_passes.
Qed.

(** C6, as stated, fails for the rule list of the specification
    ([specRules]).  The first profile violates its rule on the profile
    picture URL and nothing else, and [validateProfile] returns no error;
    the second violates none of its rules, and [validateProfile] returns
    an error, for the empty display name. *)
Lemma validateProfile_misses_spec_rules :
  let p := withPictures "not a url" "" aliceProfile in
  let q := {| NSID := "social.shareframe.profile"; DisplayName := "";
              Bio := "Hello"; ProfilePicture := ""; ProfileBanner := "";
              Theme := "dark"; PrimaryColor := ""; SecondaryColor := "";
              UpdatedAt := "2025-03-01T12:00:00Z" |} in
  (violated (specRules world_ok) p = ["profile picture URL"] /\
   handler.validateProfile world_ok p = None) /\
  (violated (specRules world_ok) q = [] /\
   handler.validateProfile world_ok q =
     Some "profile validation failed: displayName must be present").
Proof. by vm_compute. Qed.

(** C10: a profile with an empty display name fails validation, and the
    error names the reason "displayName must be present"; a wrong NSID is
    not reported on its own: its reason heads the aggregate of the reasons
    of all violated rules. *)
Theorem validateProfile_displayName_and_NSID (w : World) (p : UserProfile) :
  (DisplayName p = "" ->
     exists msg, handler.validateProfile w p = Some msg /\
                 strings.Contains msg "displayName must be present" = true) /\
  (NSID p ≠ "social.shareframe.profile" ->
     handler.validateProfile w p =
       Some (aggregated
               ("invalid NSID: only social.shareframe.profile is allowed"
                  :: violated (tail (rules w)) p))).
Proof.
  split.
  - intros Hd.
    apply (validateProfile_reports w
             (fun p => bool_decide (DisplayName p = ""), "displayName must be present")).
    + unfold rules. right. left.
    + simpl. by apply bool_decide_eq_true.
  - intros Hn. rewrite validateProfile_violated.
    unfold violated, rules. cbn [List.filter fst snd tail].
    by rewrite bool_decide_true.
Qed.

Lemma validateProfile_displayName_and_NSID_witness :
  (exists msg, handler.validateProfile world_ok emptyProfile = Some msg /\
               strings.Contains msg "displayName must be present" = true) /\
  handler.validateProfile world_ok emptyProfile =
    Some "profile validation failed: invalid NSID: only social.shareframe.profile is allowed; displayName must be present; invalid datetime format for updatedAt".
Proof.
  destruct (validateProfile_displayName_and_NSID world_ok emptyProfile) as [H1 H2].
  split; [by apply H1 |]. rewrite H2; by vm_compute.
Defined.

(** C4, as amended: [validateProfile] has no rule on the profile picture
    URL or the profile banner URL: its result does not depend on the two
    fields, and a profile that satisfies the five rules passes whatever
    the two URLs are. *)
Theorem validateProfile_ignores_urls (w : World) (p : UserProfile)
    (picture banner : string) :
  handler.validateProfile w (withPictures picture banner p) =
    handler.validateProfile w p /\
  ((forall rule, rule ∈ rules w -> rule.1 p = false) ->
     handler.validateProfile w (withPictures picture banner p) = None).
Proof.
  split; [reflexivity |]. intros H.
  change (handler.validateProfile w p = None). by apply validateProfile_passes.
Qed.

(** C4, as stated, fails: neither URL below has the URL shape, and the
    profile passes validation. *)
Lemma validateProfile_accepts_malformed_url :
  let p := withPictures "not a url" "ftp://[banner]" aliceProfile in
  ProfilePicture p ≠ "" /\ handler.isValidURL (ProfilePicture p) = false /\
  ProfileBanner p ≠ "" /\ handler.isValidURL (ProfileBanner p) = false /\
  handler.validateProfile world_ok p = None.
Proof. by vm_compute. Qed.

(** C5, as amended: [validateProfile] has no rule on the primary or the
    secondary colour: its result does not depend on the two fields, and a
    profile that satisfies the five rules passes whatever the two colours
    are. *)
Theorem validateProfile_ignores_colors (w : World) (p : UserProfile)
    (primary secondary : string) :
  handler.validateProfile w (withColors primary secondary p) =
    handler.validateProfile w p /\
  ((forall rule, rule ∈ rules w -> rule.1 p = false) ->
     handler.validateProfile w (withColors primary secondary p) = None).
Proof.
  split; [reflexivity |]. intros H.
  change (handler.validateProfile w p = None). by apply validateProfile_passes.
Qed.

(** C5, as stated, fails: neither colour below is a hex colour, and the
    profile passes validation. *)
Lemma validateProfile_accepts_malformed_color :
  let p := withColors "blue" "#12345" aliceProfile in
  PrimaryColor p ≠ "" /\ handler.isValidHexColor (PrimaryColor p) = false /\
  SecondaryColor p ≠ "" /\ handler.isValidHexColor (SecondaryColor p) = false /\
  handler.validateProfile world_ok p = None.
Proof. by vm_compute. Qed.

(** ** The orchestrator *)

Section orchestrator.

Variable w : World.
Implicit Types (request : RequestPayload) (t : Trace).

(** The record-service call appends one request to the trace; what it
    returns does not depend on the trace so far. *)
Lemma updateProfileInATProtocol_run repo p token validate t :
  exists hreq,
    handler.updateProfileInATProtocol w repo p token validate t =
      ((run (handler.updateProfileInATProtocol w repo p token validate)).1,
       t ++ [EvHttpDo hreq]) /\
    ((run (handler.updateProfileInATProtocol w repo p token validate)).1.2 = None ->
     recordAccepted w hreq).
Proof.
  unfold handler.updateProfileInATProtocol. io_unfold.
  eexists. split.
  - destruct (http_Do w _) as [e|resp]; [done |]. by case_bool_decide.
  - destruct (http_Do w _) as [e|resp] eqn:E; [done |].
    case_bool_decide as Hs; [done |]. intros _. exists resp. split; [done |].
    by destruct (decide (StatusCode resp = StatusOK)).
Qed.

(** The store client appends at most one [UpdateItem] to the trace. *)
Lemma UpdateUserInDynamoDB_trace userID p t :
  let r := dynamodb.UpdateUserInDynamoDB w
             {| dynamodb.Client := dynamodb.NewFromConfig w |} userID p t in
  r.2 = t \/ exists input, r.2 = t ++ [EvUpdateItem input].
Proof.
  unfold dynamodb.UpdateUserInDynamoDB.
  destruct (dynamodb.buildUpdateExpression w p) as [expr vals].
  repeat case_bool_decide; simpl; [by left | by left |].
  right. io_unfold. eexists. by destruct (dynamo_UpdateItem w _).
Qed.

(** The traces of an invocation: the configuration is loaded; then, unless
    the invocation stops there, the record service is called; then, only if
    the record service accepted the record, the store may be written. *)
Lemma HandleRequest_trace request :
  let tr := (run (handler.HandleRequest w request)).2 in
  tr = [EvLoadDefaultConfig] \/
  (exists hreq, tr = [EvLoadDefaultConfig; EvHttpDo hreq]) \/
  (exists hreq input,
     tr = [EvLoadDefaultConfig; EvHttpDo hreq; EvUpdateItem input] /\
     recordAccepted w hreq /\
     (run (handler.updateProfileInATProtocol w (Repo request) (Profile request)
             (BearerToken request) false)).1.2 = None).
Proof.
  unfold handler.HandleRequest, dynamodb.NewDynamoClient. io_unfold.
  destruct (LoadDefaultConfig w); simpl; [by left |].
  destruct (handler.validateProfile w _); simpl; [by left |].
  destruct (updateProfileInATProtocol_run (Repo request) (Profile request)
              (BearerToken request) false [EvLoadDefaultConfig])
    as (hreq & -> & Hacc).
  destruct (run _).1 as [response [e|]] eqn:E; simpl; [right; left; by eexists |].
  pose proof (UpdateUserInDynamoDB_trace (Repo request) (Profile request)
                [EvLoadDefaultConfig; EvHttpDo hreq]) as Htr.
  simpl in Htr.
  destruct (dynamodb.UpdateUserInDynamoDB _ _ _ _ _) as [[e|] tr'];
    simpl in *; destruct Htr as [->|[input ->]];
    solve [ right; left; by eexists
          | right; right; exists hreq, input;
            split; [done | split; [by apply Hacc | unfold run in E; by rewrite E]] ].
Qed.

(** C2: in the trace of an invocation every [UpdateItem] is preceded by a
    request to the record service that was answered with HTTP 200; and if
    the record-service write returns an error, the trace has no
    [UpdateItem]. *)
Theorem store_write_only_after_record_write request :
  let tr := (run (handler.HandleRequest w request)).2 in
  (forall pre input post,
     tr = pre ++ EvUpdateItem input :: post ->
     exists hreq, EvHttpDo hreq ∈ pre /\ recordAccepted w hreq) /\
  ((run (handler.updateProfileInATProtocol w (Repo request) (Profile request)
           (BearerToken request) false)).1.2 ≠ None ->
   forall input, EvUpdateItem input ∉ tr).
Proof.
  intros tr. subst tr.
  destruct (HandleRequest_trace request)
    as [-> | [(hreq & ->) | (hreq & input' & -> & Hacc & Hok)]].
  - split.
    + intros [|? [|? ?]] input post [=].
    + intros _ input [[=]|[]%elem_of_nil]%elem_of_cons.
  - split.
    + intros [|? [|? [|? ?]]] input post [=].
    + intros _ input Hin.
      by repeat (apply elem_of_cons in Hin as [[=]|Hin]); apply elem_of_nil in Hin.
  - split.
    + intros [|? [|? [|? [|? ?]]]] input post [=]; subst.
      exists hreq. split; [right; left | done].
    + by intros [].
Qed.

(** C7, as amended: when the profile fails validation, no request goes to
    the record service and no [UpdateItem] to the store; and when the
    DynamoDB client could be constructed, the invocation returns the
    payload [{"error": <validation message>}] with a nil error. *)
Theorem HandleRequest_validation_failure request (msg : string) :
  handler.validateProfile w (Profile request) = Some msg ->
  (forall ev, ev ∈ (run (handler.HandleRequest w request)).2 ->
     isHttpDo ev = false /\ isUpdateItem ev = false) /\
  (LoadDefaultConfig w = None ->
     (run (handler.HandleRequest w request)).1 = ({[ "error" := msg ]}, None)).
Proof.
  intros Hv. unfold handler.HandleRequest, dynamodb.NewDynamoClient. io_unfold.
  destruct (LoadDefaultConfig w); simpl.
  - split; [|done]. by intros ev [->|[]%elem_of_nil]%elem_of_cons.
  - rewrite Hv. simpl. split; [|done].
    by intros ev [->|[]%elem_of_nil]%elem_of_cons.
Qed.

(** What the invocation returns when the record-service write fails: the
    error text of the write as payload, and a nil error. *)
Lemma HandleRequest_record_failure request (e : error) :
  LoadDefaultConfig w = None ->
  handler.validateProfile w (Profile request) = None ->
  (run (handler.updateProfileInATProtocol w (Repo request) (Profile request)
          (BearerToken request) false)).1.2 = Some e ->
  (run (handler.HandleRequest w request)).1 = ({[ "error" := e ]}, None).
Proof.
  intros Hc Hv He. unfold handler.HandleRequest, dynamodb.NewDynamoClient.
  io_unfold. rewrite Hc; simpl. rewrite Hv; simpl.
  destruct (updateProfileInATProtocol_run (Repo request) (Profile request)
              (BearerToken request) false [EvLoadDefaultConfig])
    as (hreq & -> & _).
  destruct (run _).1 as [response err]; simpl in *. by subst err.
Qed.

(** What the invocation returns when the store write fails: a fixed
    message as payload, and the error of the store client. *)
Lemma HandleRequest_store_failure request (e : error) :
  LoadDefaultConfig w = None ->
  handler.validateProfile w (Profile request) = None ->
  (run (handler.updateProfileInATProtocol w (Repo request) (Profile request)
          (BearerToken request) false)).1.2 = None ->
  (forall t,
     (dynamodb.UpdateUserInDynamoDB w
        {| dynamodb.Client := dynamodb.NewFromConfig w |}
        (Repo request) (Profile request) t).1 = Some e) ->
  (run (handler.HandleRequest w request)).1 =
    ({[ "error" := "Failed to update profile in database" ]}, Some e).
Proof.
  intros Hc Hv Hat Hst. unfold handler.HandleRequest, dynamodb.NewDynamoClient.
  io_unfold. rewrite Hc; simpl. rewrite Hv; simpl.
  destruct (updateProfileInATProtocol_run (Repo request) (Profile request)
              (BearerToken request) false [EvLoadDefaultConfig])
    as (hreq & -> & _).
  destruct (run _).1 as [response err]; simpl in *. subst err.
  specialize (Hst [EvLoadDefaultConfig; EvHttpDo hreq]).
  destruct (dynamodb.UpdateUserInDynamoDB _ _ _ _ _) as [err tr]; simpl in *.
  by subst err.
Qed.

End orchestrator.

Lemma emptyProfile_invalid :
  handler.validateProfile world_ok emptyProfile =
    Some "profile validation failed: invalid NSID: only social.shareframe.profile is allowed; displayName must be present; invalid datetime format for updatedAt".
Proof. by vm_compute. Qed.

Lemma HandleRequest_validation_failure_witness :
  let request := {| Repo := "user123"; Profile := emptyProfile;
                    BearerToken := "token" |} in
  (run (handler.HandleRequest world_ok request)).1 =
    ({[ "error" := "profile validation failed: invalid NSID: only social.shareframe.profile is allowed; displayName must be present; invalid datetime format for updatedAt" ]},
     None).
Proof.
  intros request.
  apply (HandleRequest_validation_failure world_ok request _ emptyProfile_invalid).
  reflexivity.
Defined.

(** C7, as stated, fails: the profile below fails validation, but the AWS
    configuration cannot be loaded, which [HandleRequest] finds out first,
    and the invocation returns a non-nil error. *)
Lemma HandleRequest_validation_failure_after_config_failure :
  let request := {| Repo := "user123"; Profile := emptyProfile;
                    BearerToken := "token" |} in
  handler.validateProfile world_noconfig (Profile request) ≠ None /\
  (run (handler.HandleRequest world_noconfig request)).1 =
    ({[ "error" := "Internal server error" ]},
     Some "failed to load AWS SDK config: invalid configuration").
Proof. by vm_compute. Qed.

(** C1, the code at the failing input: the profile passes validation and
    the record service answers HTTP 500; [HandleRequest] returns the error
    text of the record-service write as payload, status line included, and
    a nil invocation-level error; the store is not written. *)
Theorem HandleRequest_record_failure_http500 :
  handler.validateProfile world_http500 (Profile aliceRequest) = None /\
  (run (handler.updateProfileInATProtocol world_http500 (Repo aliceRequest)
          (Profile aliceRequest) (BearerToken aliceRequest) false)).1 =
    ("", Some "failed to update profile: 500 Internal Server Error") /\
  (run (handler.HandleRequest world_http500 aliceRequest)).1 =
    ({[ "error" := "failed to update profile: 500 Internal Server Error" ]},
     None) /\
  List.filter isUpdateItem (run (handler.HandleRequest world_http500 aliceRequest)).2
    = [].
Proof. by vm_compute. Qed.

(** The sibling branch, for comparison: when the store write fails, the
    payload is a fixed message and the error is not nil. *)
Example HandleRequest_store_failure_example :
  (run (handler.HandleRequest world_dynamo_down aliceRequest)).1 =
    ({[ "error" := "Failed to update profile in database" ]},
     Some "failed to update user in DynamoDB: connection reset").
Proof. by vm_compute. Qed.

(** Scenario A: every call succeeds. *)
Example HandleRequest_success_example :
  (run (handler.HandleRequest world_ok aliceRequest)).1 =
    ({[ "message" := "Profile updated successfully";
        "response" := "Profile successfully updated" ]}, None) /\
  List.map isUpdateItem (run (handler.HandleRequest world_ok aliceRequest)).2 =
    [false; false; true].
Proof. by vm_compute. Qed.

(** ** The two shapes, on examples *)

Example isValidURL_examples :
  handler.isValidURL "https://cdn.example.com:8080/img/a b.png" = true /\
  handler.isValidURL "picture.jpg" = true /\
  handler.isValidURL "http://" = false /\
  handler.isValidURL "example.com:/x" = false /\
  handler.isValidURL "not a url" = false.
Proof. by vm_compute. Qed.

Example isValidHexColor_examples :
  handler.isValidHexColor "#fff" = true /\
  handler.isValidHexColor "#A0b1C2" = true /\
  handler.isValidHexColor "#ffff" = false /\
  handler.isValidHexColor "fff" = false /\
  handler.isValidHexColor "#ggg" = false.
Proof. by vm_compute. Qed.

(** * Further properties *)

(** ** The matcher and the language of a pattern *)

Section regexp_facts.

Import regexp.
Implicit Types (r : Regexp) (s t : string) (c : ascii).

Lemma append_eq_nil s t : s +:+ t = "" -> s = "" /\ t = "".
Proof. destruct s; [by rewrite append_nil_l | by rewrite append_cons]. Qed.

Lemma append_eq_cons s t c u :
  s +:+ t = String c u ->
  (s = "" /\ t = String c u) \/ exists s', s = String c s' /\ u = s' +:+ t.
Proof.
  destruct s as [|a s].
  - rewrite append_nil_l. by left.
  - rewrite append_cons. intros [= -> <-]. right. by eexists.
Qed.

Lemma length_append s t :
  String.length (s +:+ t) = String.length s + String.length t.
Proof.
  induction s as [|a s IH]; [done |]. rewrite append_cons; simpl. by rewrite IH.
Qed.

Lemma allChars_append f s t :
  allChars f (s +:+ t) = allChars f s && allChars f t.
Proof.
  induction s as [|a s IH]; [done |].
  rewrite append_cons; simpl. by rewrite IH, andb_assoc.
Qed.

Lemma matches_Void_inv s : ¬ matches Void s.
Proof. inversion 1. Qed.

Lemma matches_Eps_inv s : matches Eps s -> s = "".
Proof. by inversion 1. Qed.

Lemma matches_Class_inv p s :
  matches (Class p) s -> exists c, s = String c "" /\ p c = true.
Proof. inversion 1; subst. by eexists. Qed.

Lemma matches_Cat_inv r1 r2 s :
  matches (Cat r1 r2) s ->
  exists s1 s2, s = s1 +:+ s2 /\ matches r1 s1 /\ matches r2 s2.
Proof. inversion 1; subst. by do 2 eexists. Qed.

Lemma matches_Alt_inv r1 r2 s :
  matches (Alt r1 r2) s -> matches r1 s \/ matches r2 s.
Proof. inversion 1; subst; [by left | by right]. Qed.

Lemma matches_cons_Cat r1 r2 c s1 s2 :
  matches r1 (String c s1) -> matches r2 s2 ->
  matches (Cat r1 r2) (String c (s1 +:+ s2)).
Proof. intros H1 H2. rewrite <- append_cons. by constructor. Qed.

Lemma matches_nil_Cat r1 r2 s :
  matches r1 "" -> matches r2 s -> matches (Cat r1 r2) s.
Proof. intros H1 H2. rewrite <- (append_nil_l s). by constructor. Qed.

Lemma nullable_matches r : nullable r = true <-> matches r "".
Proof.
  split.
  - induction r; simpl; try done.
    + constructor.
    + intros [H1 H2]%andb_true_iff. apply matches_nil_Cat; auto.
    + intros [H|H]%orb_true_iff; [apply matches_Alt_l | apply matches_Alt_r]; auto.
    + constructor.
  - remember "" as s eqn:Es. induction 1; simpl; try done.
    + apply append_eq_nil in Es as [-> ->]. by rewrite IHmatches1, IHmatches2.
    + by rewrite IHmatches.
    + rewrite IHmatches by done. apply orb_true_r.
Qed.

(** A non-empty match of [r*] starts with a non-empty match of [r]. *)
Lemma matches_Star_cons_inv r c s :
  matches (Star r) (String c s) ->
  exists s1 s2, s = s1 +:+ s2 /\ matches r (String c s1) /\ matches (Star r) s2.
Proof.
  remember (Star r) as r' eqn:Er. remember (String c s) as s' eqn:Es.
  intros H. revert s Es. induction H; intros u Es; try done.
  injection Er as ->.
  apply append_eq_cons in Es as [[-> ->] | (s' & -> & ->)].
  - by apply IHmatches2.
  - by do 2 eexists.
Qed.

Lemma deriv_matches r c s : matches (deriv c r) s <-> matches r (String c s).
Proof.
  revert s. induction r as [| |p|r1 IH1 r2 IH2|r1 IH1 r2 IH2|r IH]; intros s; simpl.
  - split; intros H; by apply matches_Void_inv in H.
  - split; intros H; [by apply matches_Void_inv in H | by apply matches_Eps_inv in H].
  - split.
    + destruct (p c) eqn:Hp; intros H; [|by apply matches_Void_inv in H].
      apply matches_Eps_inv in H as ->. by constructor.
    + intros (c' & [= <- ->] & Hp)%matches_Class_inv. rewrite Hp. constructor.
  - assert (matches (Cat (deriv c r1) r2) s ->
            matches (Cat r1 r2) (String c s)) as Hl.
    { intros (s1 & s2 & -> & H1 & H2)%matches_Cat_inv.
      apply matches_cons_Cat; [by apply IH1 | done]. }
    assert (matches (Cat r1 r2) (String c s) ->
            matches (Cat (deriv c r1) r2) s \/
            (nullable r1 = true /\ matches (deriv c r2) s)) as Hr.
    { intros (s1 & s2 & Es & H1 & H2)%matches_Cat_inv. symmetry in Es.
      apply append_eq_cons in Es as [[-> ->] | (s' & -> & ->)].
      - right. split; [by apply nullable_matches | by apply IH2].
      - left. constructor; [by apply IH1 | done]. }
    destruct (nullable r1) eqn:Hn.
    + split.
      * intros [H|H]%matches_Alt_inv; [by apply Hl |].
        apply matches_nil_Cat; [by apply nullable_matches | by apply IH2].
      * intros [H|[_ H]]%Hr; [by apply matches_Alt_l | by apply matches_Alt_r].
    + split; [done |]. by intros [H|[? H]]%Hr.
  - split.
    + intros [H|H]%matches_Alt_inv;
        [apply matches_Alt_l, IH1 | apply matches_Alt_r, IH2]; done.
    + intros [H|H]%matches_Alt_inv;
        [apply matches_Alt_l, IH1 | apply matches_Alt_r, IH2]; done.
  - split.
    + intros (s1 & s2 & -> & H1 & H2)%matches_Cat_inv.
      rewrite <- append_cons. constructor; [by apply IH | done].
    + intros (s1 & s2 & -> & H1 & H2)%matches_Star_cons_inv.
      constructor; [by apply IH | done].
Qed.

(** The matcher decides membership in the language of the pattern. *)
Lemma MatchString_matches r s : MatchString r s = true <-> matches r s.
Proof.
  revert r. induction s as [|c s IH]; intros r; simpl.
  - apply nullable_matches.
  - by rewrite IH, deriv_matches.
Qed.

Lemma matches_Lit l s : matches (Lit l) s <-> s = l.
Proof.
  revert s. induction l as [|a l IH]; intros s; simpl.
  - split; [apply matches_Eps_inv | intros ->; constructor].
  - split.
    + intros (s1 & s2 & -> & (c & -> & Hc)%matches_Class_inv & H2)%matches_Cat_inv.
      apply Ascii.eqb_eq in Hc as ->. apply IH in H2 as ->. done.
    + intros ->. apply (matches_cons_Cat _ _ a "" l); [|by apply IH].
      constructor. apply Ascii.eqb_refl.
Qed.

Lemma matches_Opt r s : matches (Opt r) s <-> s = "" \/ matches r s.
Proof.
  unfold Opt. split.
  - intros [->%matches_Eps_inv|H]%matches_Alt_inv; [by left | by right].
  - intros [->|H]; [apply matches_Alt_l; constructor | by apply matches_Alt_r].
Qed.

Lemma matches_Star_Class p s :
  matches (Star (Class p)) s <-> allChars p s = true.
Proof.
  split.
  - remember (Star (Class p)) as r eqn:Er. induction 1; try done.
    injection Er as ->.
    apply matches_Class_inv in H as (c & -> & Hc).
    rewrite append_cons, append_nil_l; simpl. by rewrite Hc, IHmatches2.
  - induction s as [|c s IH]; simpl; [constructor |].
    intros [Hc Hs]%andb_true_iff.
    change (String c s) with (String c "" +:+ s).
    constructor; [by constructor | by apply IH].
Qed.

Lemma matches_Plus_Class p s :
  matches (Plus (Class p)) s <-> s ≠ "" /\ allChars p s = true.
Proof.
  unfold Plus. split.
  - intros (s1 & s2 & -> & (c & -> & Hc)%matches_Class_inv & H2)%matches_Cat_inv.
    apply matches_Star_Class in H2.
    rewrite append_cons, append_nil_l; simpl. by rewrite Hc, H2.
  - destruct s as [|c s]; [by intros [] |]. simpl.
    intros [_ [Hc Hs]%andb_true_iff].
    apply (matches_cons_Cat _ _ c "" s); [by constructor |].
    by apply matches_Star_Class.
Qed.

End regexp_facts.

(** ** The two shapes *)

Section shapes.

Import regexp.

Lemma matches_Class3 p s :
  matches (Cat (Class p) (Cat (Class p) (Class p))) s <->
  String.length s = 3 /\ allChars p s = true.
Proof.
  split.
  - intros (s1 & s' & -> & (a & -> & Ha)%matches_Class_inv &
            (s2 & s3 & -> & (b & -> & Hb)%matches_Class_inv &
             (c & -> & Hc)%matches_Class_inv)%matches_Cat_inv)%matches_Cat_inv.
    simpl. by rewrite Ha, Hb, Hc.
  - destruct s as [|a [|b [|c [|? ?]]]]; simpl; intros [[=] H].
    apply andb_true_iff in H as [Ha [Hb [Hc _]%andb_true_iff]%andb_true_iff].
    apply (matches_cons_Cat _ _ a "" (String b (String c ""))); [by constructor |].
    apply (matches_cons_Cat _ _ b "" (String c "")); by constructor.
Qed.

(** X12: the typed revision's [isValidHexColor] accepts exactly the
    strings made of [#] and then three or six hexadecimal digits. *)
Theorem isValidHexColor_spec (color : string) :
  handler.isValidHexColor color = true <->
  exists digits,
    color = "#" +:+ digits /\
    (String.length digits = 3 \/ String.length digits = 6) /\
    allChars handler.hexdigit digits = true.
Proof.
  unfold handler.isValidHexColor, handler.hexColorRegex.
  rewrite MatchString_matches. split.
  - intros (s1 & s2 & -> & ->%matches_Lit &
            (d1 & d2 & -> & [Hl1 Hc1]%matches_Class3 & Hopt%matches_Opt)%matches_Cat_inv)
           %matches_Cat_inv.
    exists (d1 +:+ d2). split; [done |].
    rewrite length_append, allChars_append, Hl1, Hc1.
    destruct Hopt as [->|[Hl2 Hc2]%matches_Class3].
    + split; [by left | done].
    + rewrite Hl2, Hc2. split; [by right | done].
  - intros (digits & -> & Hlen & Hall).
    constructor; [by apply matches_Lit |].
    destruct Hlen as [Hlen|Hlen].
    + rewrite <- (append_nil_r digits).
      constructor; [by apply matches_Class3 | apply matches_Opt; by left].
    + destruct digits as [|a [|b [|c rest]]]; try done.
      simpl in Hlen, Hall.
      apply andb_true_iff in Hall as [Ha [Hb [Hc Hrest]%andb_true_iff]%andb_true_iff].
      change (String a (String b (String c rest)))
        with (String a (String b (String c "")) +:+ rest).
      constructor.
      * apply matches_Class3. simpl. by rewrite Ha, Hb, Hc.
      * apply matches_Opt. right. apply matches_Class3. split; [lia | done].
Qed.

Lemma matches_scheme s :
  matches (Opt (Cat (Lit "http") (Cat (Opt (Lit "s")) (Lit "://")))) s <->
  s = "" \/ s = "http://" \/ s = "https://".
Proof.
  rewrite matches_Opt. split.
  - intros [->|(s1 & s' & -> & ->%matches_Lit &
                (s2 & s3 & -> & [->| ->%matches_Lit]%matches_Opt & ->%matches_Lit)
                  %matches_Cat_inv)%matches_Cat_inv]; auto.
  - intros [->|[->| ->]]; [by left | right | right].
    + change "http://" with ("http" +:+ "" +:+ "://").
      constructor; [by apply matches_Lit |].
      constructor; [apply matches_Opt; by left | by apply matches_Lit].
    + change "https://" with ("http" +:+ "s" +:+ "://").
      constructor; [by apply matches_Lit |].
      constructor; [apply matches_Opt; right; by apply matches_Lit
                   | by apply matches_Lit].
Qed.

Lemma matches_port s :
  matches (Opt (Cat (Lit ":") (Plus (Class digit)))) s <->
  s = "" \/ exists ds, s = ":" +:+ ds /\ ds ≠ "" /\ allChars digit ds = true.
Proof.
  rewrite matches_Opt. split.
  - intros [->|(s1 & ds & -> & ->%matches_Lit & H%matches_Plus_Class)%matches_Cat_inv];
      [by left | right; by exists ds].
  - intros [->|(ds & -> & H)]; [by left | right].
    constructor; [by apply matches_Lit | by apply matches_Plus_Class].
Qed.

Lemma matches_path s :
  matches (Opt (Cat (Lit "/") (Star (Class dot)))) s <->
  s = "" \/ exists rest, s = "/" +:+ rest /\ allChars dot rest = true.
Proof.
  rewrite matches_Opt. split.
  - intros [->|(s1 & rest & -> & ->%matches_Lit & H%matches_Star_Class)%matches_Cat_inv];
      [by left | right; by exists rest].
  - intros [->|(rest & -> & H)]; [by left | right].
    constructor; [by apply matches_Lit | by apply matches_Star_Class].
Qed.

(** X13: the typed revision's [isValidURL] accepts exactly the strings that
    split into an optional scheme [http://] or [https://], a non-empty host
    of letters, digits, dots and hyphens, an optional port ([:] and
    digits) and an optional path ([/] and anything but a newline). *)
Theorem isValidURL_spec (url : string) :
  handler.isValidURL url = true <->
  exists scheme host port path,
    url = scheme +:+ host +:+ port +:+ path /\
    (scheme = "" \/ scheme = "http://" \/ scheme = "https://") /\
    (host ≠ "" /\ allChars handler.hostchar host = true) /\
    (port = "" \/
     exists ds, port = ":" +:+ ds /\ ds ≠ "" /\ allChars digit ds = true) /\
    (path = "" \/
     exists rest, path = "/" +:+ rest /\ allChars dot rest = true).
Proof.
  unfold handler.isValidURL, handler.urlRegex.
  rewrite MatchString_matches. split.
  - intros (scheme & s1 & -> & Hs%matches_scheme &
            (host & s2 & -> & Hh%matches_Plus_Class &
             (port & path & -> & Hp%matches_port & Hq%matches_path)
               %matches_Cat_inv)%matches_Cat_inv)%matches_Cat_inv.
    by exists scheme, host, port, path.
  - intros (scheme & host & port & path & -> & Hs & Hh & Hp & Hq).
    constructor; [by apply matches_scheme |].
    constructor; [by apply matches_Plus_Class |].
    constructor; [by apply matches_port | by apply matches_path].
Qed.

(** No scheme, dot or top-level domain is needed: a non-empty string of
    host characters is a valid URL. *)
Lemma isValidURL_bare_host (host : string) :
  host ≠ "" -> allChars handler.hostchar host = true ->
  handler.isValidURL host = true.
Proof.
  intros Hne Hall. apply isValidURL_spec. exists "", host, "", "".
  rewrite !append_nil_r. repeat split; auto.
Qed.

End shapes.

(** ** The record-service client *)

Section record_client.

Variable w : World.

Lemma putRecordRequest_Header repo p token validate :
  Header (putRecordRequest w repo p token validate) =
    <["Authorization" := "Bearer " +:+ token]>
      (<["Content-Type" := "application/json"]> ∅).
Proof. unfold putRecordRequest; simpl. by rewrite insert_empty. Qed.

Lemma updateProfileInATProtocol_eq repo p token validate (t : Trace) :
  handler.updateProfileInATProtocol w repo p token validate t =
    (match http_Do w (putRecordRequest w repo p token validate) with
     | inl err => ("", Some err)
     | inr resp =>
         if bool_decide (StatusCode resp ≠ StatusOK)
         then ("", Some ("failed to update profile: " +:+ Status resp))
         else ("Profile successfully updated", None)
     end,
     t ++ [EvHttpDo (putRecordRequest w repo p token validate)]).
Proof.
  unfold handler.updateProfileInATProtocol. io_unfold.
  assert ({| Method := "POST";
             URL := "https://shareframe.social/xrpc/com.atproto.repo.putRecord";
             Header := <["Authorization" := "Bearer " +:+ token]>
                         (<["Content-Type" := "application/json"]> ∅);
             Body := {| body_repo := repo;
                        body_collection := "social.shareframe.profile";
                        body_rkey := uuid_New w;
                        body_validate := validate;
                        body_record := p |} |}
          = putRecordRequest w repo p token validate) as ->.
  { unfold putRecordRequest. by rewrite insert_empty. }
  destruct (http_Do w _) as [e|resp]; [done |]. by case_bool_decide.
Qed.

(** X1: [updateProfileInATProtocol] sends exactly one request, a POST to
    the putRecord endpoint with the bearer token in the Authorization
    header and the profile, unchanged, as the record; it succeeds exactly
    when the answer has status 200, and then returns "Profile successfully
    updated"; on every failure the returned string is empty; a transport
    error is handed on as it is, and another status gives "failed to
    update profile: " followed by the status line. *)
Theorem updateProfileInATProtocol_outcome (repo : string) (p : UserProfile)
    (token : string) (validate : bool) (t : Trace) :
  let r := handler.updateProfileInATProtocol w repo p token validate t in
  exists req,
    r.2 = t ++ [EvHttpDo req] /\
    (Method req = "POST" /\
     URL req = "https://shareframe.social/xrpc/com.atproto.repo.putRecord" /\
     Header req !! "Authorization" = Some ("Bearer " +:+ token) /\
     Header req !! "Content-Type" = Some "application/json" /\
     body_repo (Body req) = repo /\ body_record (Body req) = p /\
     body_validate (Body req) = validate /\
     body_collection (Body req) = "social.shareframe.profile") /\
    (r.1.2 = None <-> recordAccepted w req) /\
    (r.1.2 = None -> r.1.1 = "Profile successfully updated") /\
    (r.1.2 ≠ None -> r.1.1 = "") /\
    (forall e, http_Do w req = inl e -> r.1.2 = Some e) /\
    (forall resp, http_Do w req = inr resp -> StatusCode resp ≠ StatusOK ->
       r.1.2 = Some ("failed to update profile: " +:+ Status resp)).
Proof.
  intros r. subst r. rewrite updateProfileInATProtocol_eq.
  exists (putRecordRequest w repo p token validate). simpl.
  split; [done |]. split.
  { repeat split; try done; by simplify_map_eq. }
  destruct (http_Do w _) as [e|resp] eqn:E.
  - split; [split; [done |] |].
    { intros (resp & H & _). by rewrite E in H. }
    split; [done |]. split; [done |].
    split; [by intros e' [= ->] | done].
  - case_bool_decide as Hs; simpl.
    + split; [split; [done |] |].
      { intros (resp' & H & Hok). rewrite E in H. by injection H as <-. }
      split; [done |]. split; [done |].
      split; [done | by intros resp' [= <-] _].
    + split; [split; [|done] |].
      { intros _. by exists resp. }
      split; [done |]. split; [done |].
      split; [done | by intros resp' [= <-] Hne].
Qed.

End record_client.

(** ** More on the expression builder *)

Section builder_more.

Implicit Types (p : UserProfile) (kvs : list (string * string)).
Implicit Types (parts : list string) (vals : gmap string AttributeValue).

(** The binding of a visited field: set when the value is not empty. *)
Lemma foldl_range_body_bound kvs parts vals f v :
  NoDup kvs.*1 -> (f, v) ∈ kvs ->
  (foldl dynamodb.range_body (parts, vals) kvs).2 !! (":" +:+ f) =
    if decide (v = "") then vals !! (":" +:+ f)
    else Some (AttributeValueMemberS v).
Proof.
  revert parts vals.
  induction kvs as [|[g u] kvs IH]; intros parts vals Hnd Hin;
    [by apply elem_of_nil in Hin |].
  apply NoDup_cons in Hnd as [Hg Hnd].
  apply elem_of_cons in Hin as [[= <- <-]|Hin]; simpl.
  - assert (forall h, h ∈ kvs.*1 -> ":" +:+ f ≠ ":" +:+ h) as Hother.
    { intros h Hh E%colon_inj. by subst. }
    case_bool_decide as Hv; rewrite foldl_range_body_lookup by done;
      destruct (decide (v = "")); try done.
    apply lookup_insert_eq.
  - assert (f ≠ g) as Hfg.
    { intros ->. apply Hg, list_elem_of_fmap. by exists (g, v). }
    case_bool_decide; rewrite IH by done; destruct (decide (v = "")); try done.
    apply lookup_insert_ne. by intros E%colon_inj.
Qed.

(** The loop binds nothing but the visited non-empty fields. *)
Lemma foldl_range_body_keys kvs parts vals k :
  is_Some ((foldl dynamodb.range_body (parts, vals) kvs).2 !! k) ->
  is_Some (vals !! k) \/
  exists f v, (f, v) ∈ kvs /\ v ≠ "" /\ k = ":" +:+ f.
Proof.
  revert parts vals.
  induction kvs as [|[g u] kvs IH]; intros parts vals; simpl; [by left |].
  case_bool_decide as Hu; intros [H|(f & v & Hin & Hv & ->)]%IH.
  - destruct (decide (k = ":" +:+ g)) as [->|Hk].
    + right. exists g, u. split; [by left | done].
    + left. by rewrite lookup_insert_ne in H.
  - right. exists f, v. split; [by right | done].
  - by left.
  - right. exists f, v. split; [by right | done].
Qed.

Lemma buildUpdateExpression_unfold w p :
  dynamodb.buildUpdateExpression w p =
    (strings.Join
       ((foldl dynamodb.range_body ([], ∅)
           (map_range w (dynamodb.fields p))).1 ++ [timestampClause]) ", ",
     <[":UpdatedAt" := AttributeValueMemberS (time_Now w)]>
       (foldl dynamodb.range_body ([], ∅) (map_range w (dynamodb.fields p))).2).
Proof.
  unfold dynamodb.buildUpdateExpression.
  by destruct (foldl dynamodb.range_body _ _).
Qed.

Lemma populated_elem_of p f v :
  (f, v) ∈ populated p <-> (f, v) ∈ fieldList p /\ v ≠ "".
Proof. unfold populated. rewrite list_elem_of_filter. unfold nonempty. tauto. Qed.

Lemma timestamp_not_field p f v : (f, v) ∈ fieldList p -> f ≠ "UpdatedAt".
Proof.
  intros Hin ->. unfold fieldList in Hin.
  repeat (apply elem_of_cons in Hin as [[=]|Hin]). by apply elem_of_nil in Hin.
Qed.

Section with_world.

Variable w : World.
Hypothesis Hw : range_ok w.

Lemma range_fields_NoDup p : NoDup (map_range w (dynamodb.fields p)).*1.
Proof. rewrite (Hw _). apply NoDup_fst_map_to_list. Qed.

Lemma range_fields_elem_of p kv :
  kv ∈ map_range w (dynamodb.fields p) <-> kv ∈ fieldList p.
Proof. by rewrite (range_fields w p Hw). Qed.

Lemma buildUpdateExpression_size_one p :
  size (dynamodb.buildUpdateExpression w p).2 = 1 <-> allOptionalEmpty p.
Proof.
  destruct (buildUpdateExpression_eq w Hw p) as (vals & -> & Hfresh & Hsize).
  simpl. rewrite map_size_insert_None, Hsize, <- populated_nil by done.
  destruct (populated p); simpl; split; (done || lia).
Qed.

Lemma buildUpdateExpression_Contains p f v :
  (f, v) ∈ populated p ->
  strings.Contains (dynamodb.buildUpdateExpression w p).1 (clause f) = true.
Proof.
  intros Hin. rewrite buildUpdateExpression_unfold, foldl_range_body_parts. simpl.
  apply Join_Contains, elem_of_app. left.
  apply list_elem_of_fmap. exists f. split; [done |].
  apply list_elem_of_fmap. exists (f, v). split; [done |].
  apply populated_elem_of in Hin as [Hin Hv].
  apply list_elem_of_filter. split; [done | by apply range_fields_elem_of].
Qed.

(** The binding of each of the seven fields. *)
Lemma buildUpdateExpression_lookup_field (p : UserProfile) f v :
  (f, v) ∈ fieldList p ->
  (dynamodb.buildUpdateExpression w p).2 !! (":" +:+ f) =
    if decide (v = "") then None else Some (AttributeValueMemberS v).
Proof.
  intros Hin. rewrite buildUpdateExpression_unfold. simpl.
  rewrite lookup_insert_ne.
  - rewrite (foldl_range_body_bound _ _ _ f v);
      [| apply range_fields_NoDup | by apply range_fields_elem_of].
    by destruct (decide (v = "")).
  - intros E. apply (timestamp_not_field p f v Hin).
    symmetry. by apply colon_inj.
Qed.

Lemma buildUpdateExpression_lookup_timestamp (p : UserProfile) :
  (dynamodb.buildUpdateExpression w p).2 !! ":UpdatedAt" =
    Some (AttributeValueMemberS (time_Now w)).
Proof. rewrite buildUpdateExpression_unfold. apply lookup_insert_eq. Qed.

(** The keys of the binding map. *)
Lemma buildUpdateExpression_keys (p : UserProfile) k :
  is_Some ((dynamodb.buildUpdateExpression w p).2 !! k) ->
  k = ":UpdatedAt" \/ exists f v, (f, v) ∈ populated p /\ k = ":" +:+ f.
Proof.
  rewrite buildUpdateExpression_unfold. simpl. intros Hk.
  destruct (decide (k = ":UpdatedAt")) as [|Hne]; [by left |].
  rewrite lookup_insert_ne in Hk by done.
  apply foldl_range_body_keys in Hk as [[? H]|(f & v & Hin & Hv & ->)];
    [done |].
  right. exists f, v. split; [|done].
  apply populated_elem_of. split; [by apply range_fields_elem_of | done].
Qed.

(** X2: the binding map holds, for each of the seven fields, the binding
    [":<Field>"] to the field's value when the value is not empty and no
    such binding when it is empty; [":UpdatedAt"] is bound to the current
    time; and there is no other key. *)
Theorem buildUpdateExpression_bindings (p : UserProfile) :
  let vals := (dynamodb.buildUpdateExpression w p).2 in
  (forall f v, (f, v) ∈ fieldList p ->
     vals !! (":" +:+ f) =
       if decide (v = "") then None else Some (AttributeValueMemberS v)) /\
  vals !! ":UpdatedAt" = Some (AttributeValueMemberS (time_Now w)) /\
  (forall k, is_Some (vals !! k) ->
     k = ":UpdatedAt" \/ exists f v, (f, v) ∈ populated p /\ k = ":" +:+ f).
Proof.
  intros vals. subst vals. split; [|split].
  - intros f v Hin. by apply buildUpdateExpression_lookup_field.
  - apply buildUpdateExpression_lookup_timestamp.
  - intros k Hk. by apply buildUpdateExpression_keys.
Qed.

(** X4: expression and bindings agree: every key of the binding map is
    [":<Field>"] for a field whose clause occurs in the expression, and
    every populated field has both its clause and its binding. *)
Theorem buildUpdateExpression_consistent (p : UserProfile) :
  let b := dynamodb.buildUpdateExpression w p in
  (forall k, is_Some (b.2 !! k) ->
     exists f, k = ":" +:+ f /\ strings.Contains b.1 (clause f) = true) /\
  (forall f v, (f, v) ∈ populated p ->
     strings.Contains b.1 (clause f) = true /\
     b.2 !! (":" +:+ f) = Some (AttributeValueMemberS v)).
Proof.
  intros b. subst b. split.
  - intros k Hk.
    apply buildUpdateExpression_keys in Hk as [->|(f & v & Hin & ->)].
    + exists "UpdatedAt". split; [done |].
      rewrite buildUpdateExpression_unfold. simpl.
      apply Join_Contains, elem_of_app. right. by left.
    + exists f. split; [done |]. by apply (buildUpdateExpression_Contains p f v).
  - intros f v Hin. split; [by apply (buildUpdateExpression_Contains p f v) |].
    apply populated_elem_of in Hin as [Hin Hv].
    rewrite (buildUpdateExpression_lookup_field p f v Hin).
    by destruct (decide (v = "")).
Qed.

End with_world.

(** X3: the binding map does not depend on the order in which the map of
    fields is ranged over: two runs at the same time give the same
    bindings (the expression may differ). *)
Theorem buildUpdateExpression_bindings_order_free (w1 w2 : World)
    (p : UserProfile) :
  range_ok w1 -> range_ok w2 -> time_Now w1 = time_Now w2 ->
  (dynamodb.buildUpdateExpression w1 p).2 =
    (dynamodb.buildUpdateExpression w2 p).2.
Proof.
  intros H1 H2 Hnow.
  assert (forall wa wb, range_ok wa -> range_ok wb -> time_Now wa = time_Now wb ->
            forall k x, (dynamodb.buildUpdateExpression wa p).2 !! k = Some x ->
                        (dynamodb.buildUpdateExpression wb p).2 !! k = Some x)
    as Hone.
  { intros wa wb Ha Hb Hab k x Hk.
    destruct (buildUpdateExpression_keys wa Ha p k)
      as [->|(f & v & [Hin Hv]%populated_elem_of & ->)]; [by eexists | |].
    - rewrite (buildUpdateExpression_lookup_timestamp wa) in Hk.
      by rewrite (buildUpdateExpression_lookup_timestamp wb), <- Hab.
    - rewrite (buildUpdateExpression_lookup_field wa Ha p f v Hin) in Hk.
      by rewrite (buildUpdateExpression_lookup_field wb Hb p f v Hin). }
  apply map_eq. intros k.
  destruct ((dynamodb.buildUpdateExpression w1 p).2 !! k) as [x|] eqn:E1.
  - symmetry. by apply (Hone w1 w2).
  - destruct ((dynamodb.buildUpdateExpression w2 p).2 !! k) as [y|] eqn:E2; [|done].
    apply (Hone w2 w1) in E2; [congruence | done | done | done].
Qed.

Lemma buildUpdateExpression_bindings_order_free_witness :
  (dynamodb.buildUpdateExpression world_ok aliceProfile).2 =
    (dynamodb.buildUpdateExpression world_reversed aliceProfile).2.
Proof.
  apply buildUpdateExpression_bindings_order_free;
    [exact world_ok_range_ok | exact world_reversed_range_ok | reflexivity].
Defined.

End builder_more.

Lemma buildUpdateExpression_bindings_witness :
  range_ok world_ok /\
  (dynamodb.buildUpdateExpression world_ok aliceProfile).2 !! ":Bio" =
    Some (AttributeValueMemberS "Hello") /\
  (dynamodb.buildUpdateExpression world_ok aliceProfile).2 !! ":ProfileBanner" =
    None.
Proof.
  split; [exact world_ok_range_ok |].
  destruct (buildUpdateExpression_bindings world_ok world_ok_range_ok aliceProfile)
    as (H & _ & _).
  split.
  - apply (H "Bio" "Hello"). unfold fieldList. right. left.
  - apply (H "ProfileBanner" ""). unfold fieldList. do 3 right. left.
Defined.

Lemma buildUpdateExpression_consistent_witness :
  range_ok world_ok /\
  strings.Contains (dynamodb.buildUpdateExpression world_ok aliceProfile).1
    "Theme = :Theme" = true /\
  (dynamodb.buildUpdateExpression world_ok aliceProfile).2 !! ":Theme" =
    Some (AttributeValueMemberS "dark").
Proof.
  split; [exact world_ok_range_ok |].
  apply (proj2 (buildUpdateExpression_consistent world_ok world_ok_range_ok
                  aliceProfile) "Theme" "dark").
  apply populated_elem_of. split; [|done]. unfold fieldList. do 4 right. left.
Defined.

(** ** More on the store client *)

Section store_client_more.

Variable w : World.
Hypothesis Hw : range_ok w.

(** X5: for every implementation of [DynamoDBAPI] (the service client or
    a test double): with an empty user id, or a profile without any
    non-empty optional field, [UpdateUserInDynamoDB] returns an error and
    never calls [UpdateItem]; otherwise it calls [UpdateItem] once, with
    table "Users", key [UserId] and the built expression after "SET ",
    and returns its error wrapped, so it returns nil exactly when the user
    id is not empty, a field is populated and [UpdateItem] returned nil. *)
Theorem UpdateUserInDynamoDB_any_client (d : dynamodb.DynamoClient)
    (userID : string) (p : UserProfile) (t : Trace) :
  let r := dynamodb.UpdateUserInDynamoDB w d userID p t in
  let call := dynamodb.UpdateItem (dynamodb.Client d) (updateItemInput w userID p) t in
  (userID = "" \/ allOptionalEmpty p -> exists e, r = (Some e, t)) /\
  (userID ≠ "" -> ¬ allOptionalEmpty p -> r = (wrapStoreError call.1, call.2)) /\
  (r.1 = None <-> userID ≠ "" /\ ¬ allOptionalEmpty p /\ call.1 = None).
Proof.
  intros r call. subst r call.
  pose proof (buildUpdateExpression_size_one w Hw p) as Hsz.
  unfold dynamodb.UpdateUserInDynamoDB, updateItemInput.
  destruct (dynamodb.buildUpdateExpression w p) as [expr vals]. simpl in *.
  case_bool_decide as Hu; [|case_bool_decide as Hs].
  - split; [by eexists |]. split; [done |]. split; [done | by intros [? _]].
  - apply Hsz in Hs.
    split; [by eexists |]. split; [done |]. split; [done | by intros (_ & ? & _)].
  - assert (¬ allOptionalEmpty p) as Hp by (by rewrite <- Hsz).
    io_unfold. unfold dynamodb.tableName.
    destruct (dynamodb.UpdateItem _ _ t) as [[e|] t']; simpl.
    + split; [by intros [?|?] |]. split; [done |].
      split; [done | by intros (_ & _ & ?)].
    + split; [by intros [?|?] |]. done.
Qed.

End store_client_more.

Lemma UpdateUserInDynamoDB_any_client_witness :
  range_ok world_ok /\
  (dynamodb.UpdateUserInDynamoDB world_ok (realClient world_ok)
     "user123" aliceProfile []).1 = None.
Proof.
  split; [exact world_ok_range_ok |].
  apply (UpdateUserInDynamoDB_any_client world_ok world_ok_range_ok
           (realClient world_ok) "user123" aliceProfile []).
  split; [done |]. split; [exact aliceProfile_populated | reflexivity].
Defined.

(** ** More on the validator *)

Section validator_more.

Variable w : World.

Lemma validateProfile_None_rule p rule :
  handler.validateProfile w p = None -> rule ∈ rules w -> rule.1 p = false.
Proof.
  intros Hv Hin. destruct (rule.1 p) eqn:E; [|done].
  destruct (validateProfile_reports w rule p Hin E) as (msg & Hmsg & _).
  congruence.
Qed.

(** X6: [validateProfile] accepts a profile exactly when the NSID is
    "social.shareframe.profile", the display name is not empty, the bio has
    at most 256 bytes, the theme is empty, "light", "dark" or "custom",
    and the timestamp parses as RFC 3339. *)
Theorem validateProfile_None_iff (p : UserProfile) :
  handler.validateProfile w p = None <->
  NSID p = "social.shareframe.profile" /\
  DisplayName p ≠ "" /\
  String.length (Bio p) <= 256 /\
  (Theme p = "" \/ Theme p = "light" \/ Theme p = "dark" \/ Theme p = "custom") /\
  time_Parse_RFC3339 w (UpdatedAt p) = true.
Proof.
  split.
  - intros Hv.
    pose proof (fun rule => validateProfile_None_rule p rule Hv) as Hr.
    unfold rules in Hr.
    pose proof (Hr _ ltac:(left)) as H1.
    pose proof (Hr _ ltac:(right; left)) as H2.
    pose proof (Hr _ ltac:(do 2 right; left)) as H3.
    pose proof (Hr _ ltac:(do 3 right; left)) as H4.
    pose proof (Hr _ ltac:(do 4 right; left)) as H5.
    simpl in *.
    apply bool_decide_eq_false in H1, H2, H3.
    apply negb_false_iff in H5.
    split; [by apply dec_stable |]. split; [done |]. split; [lia |].
    split; [|done].
    repeat case_bool_decide; try done; auto.
  - intros (H1 & H2 & H3 & H4 & H5).
    apply validateProfile_passes. unfold rules. intros rule Hin.
    repeat (apply elem_of_cons in Hin as [->|Hin]); simpl.
    + by apply bool_decide_eq_false; intros ?.
    + by apply bool_decide_eq_false.
    + apply bool_decide_eq_false. lia.
    + destruct H4 as [->|[->|[->| ->]]]; by vm_compute.
    + by rewrite H5.
    + by apply elem_of_nil in Hin.
Qed.

End validator_more.

(** ** More on the orchestrator *)

Section orchestrator_more.

Variable w : World.
Implicit Types (request : RequestPayload) (p : UserProfile) (t : Trace).

Lemma recordOutcome_None r :
  (recordOutcome r).2 = None <->
  exists resp, r = inr resp /\ StatusCode resp = StatusOK.
Proof.
  destruct r as [e|resp]; simpl.
  - split; [done | by intros (? & [=] & _)].
  - case_bool_decide as Hs; simpl.
    + split; [done | intros (? & [= <-] & ?); done].
    + split; [intros _; by exists resp | done].
Qed.

Lemma recordOutcome_Some r e :
  (recordOutcome r).2 = Some e -> (recordOutcome r).1 = "".
Proof. destruct r as [?|resp]; simpl; [done |]. by case_bool_decide. Qed.

Lemma recordOutcome_ok r :
  (recordOutcome r).2 = None -> (recordOutcome r).1 = "Profile successfully updated".
Proof. destruct r as [?|resp]; simpl; [done |]. by case_bool_decide. Qed.

(** The store client on the service's own client. *)
Lemma UpdateUserInDynamoDB_real userID p t :
  dynamodb.UpdateUserInDynamoDB w (realClient w) userID p t =
    if bool_decide (userID = "") then (Some "userID cannot be empty", t)
    else if bool_decide (size (dynamodb.buildUpdateExpression w p).2 = 1)
    then (Some "no valid fields provided to update", t)
    else (wrapStoreError (dynamo_UpdateItem w (updateItemInput w userID p)),
          t ++ [EvUpdateItem (updateItemInput w userID p)]).
Proof.
  unfold dynamodb.UpdateUserInDynamoDB, updateItemInput.
  destruct (dynamodb.buildUpdateExpression w p) as [expr vals]. simpl.
  repeat case_bool_decide; try done.
  io_unfold. unfold dynamodb.tableName. by destruct (dynamo_UpdateItem w _).
Qed.

(** The invocation, step by step. *)
Lemma HandleRequest_eq request :
  run (handler.HandleRequest w request) =
    match LoadDefaultConfig w with
    | Some e =>
        (({[ "error" := "Internal server error" ]},
          Some ("failed to load AWS SDK config: " +:+ e)),
         [EvLoadDefaultConfig])
    | None =>
        match handler.validateProfile w (Profile request) with
        | Some msg => (({[ "error" := msg ]}, None), [EvLoadDefaultConfig])
        | None =>
            let req := putRecordRequest w (Repo request) (Profile request)
                         (BearerToken request) false in
            match recordOutcome (http_Do w req) with
            | (_, Some e) =>
                (({[ "error" := e ]}, None), [EvLoadDefaultConfig; EvHttpDo req])
            | (response, None) =>
                match dynamodb.UpdateUserInDynamoDB w (realClient w)
                        (Repo request) (Profile request)
                        [EvLoadDefaultConfig; EvHttpDo req] with
                | (Some e, tr) =>
                    (({[ "error" := "Failed to update profile in database" ]},
                      Some e), tr)
                | (None, tr) =>
                    (({[ "message" := "Profile updated successfully";
                         "response" := response ]}, None), tr)
                end
            end
        end
    end.
Proof.
  unfold handler.HandleRequest, dynamodb.NewDynamoClient. io_unfold.
  destruct (LoadDefaultConfig w); simpl; [done |].
  destruct (handler.validateProfile w _); simpl; [done |].
  rewrite updateProfileInATProtocol_eq. simpl.
  fold (recordOutcome (http_Do w (putRecordRequest w (Repo request)
          (Profile request) (BearerToken request) false))).
  destruct (recordOutcome _) as [response [e|]]; simpl; [done |].
  fold (realClient w).
  by destruct (dynamodb.UpdateUserInDynamoDB _ _ _ _ _) as [[e|] tr].
Qed.

Lemma validated_populated p :
  handler.validateProfile w p = None -> ¬ allOptionalEmpty p.
Proof.
  intros Hv [Hd _].
  pose proof (validateProfile_None_rule w p
                (fun p => bool_decide (DisplayName p = ""),
                 "displayName must be present") Hv) as H.
  simpl in H. rewrite bool_decide_true in H by done.
  discriminate H. unfold rules. right. left.
Qed.

(** X7: a non-nil invocation-level error comes with one of two fixed
    payloads: "Internal server error" when the DynamoDB client cannot be
    constructed (and then nothing else is called), or "Failed to update
    profile in database" when the store client fails after the record
    service accepted the record.  A validation failure or a failure of the
    record service never gives a non-nil error. *)
Theorem HandleRequest_error_channel (request : RequestPayload) (e : error) :
  (run (handler.HandleRequest w request)).1.2 = Some e ->
  (exists e0, LoadDefaultConfig w = Some e0 /\
     e = "failed to load AWS SDK config: " +:+ e0 /\
     run (handler.HandleRequest w request) =
       (({[ "error" := "Internal server error" ]}, Some e),
        [EvLoadDefaultConfig])) \/
  (LoadDefaultConfig w = None /\
   handler.validateProfile w (Profile request) = None /\
   recordAccepted w (putRecordRequest w (Repo request) (Profile request)
                       (BearerToken request) false) /\
   (run (handler.HandleRequest w request)).1.1 =
     {[ "error" := "Failed to update profile in database" ]}).
Proof.
  rewrite HandleRequest_eq.
  destruct (LoadDefaultConfig w) as [e0|]; simpl.
  { intros [= <-]. left. by exists e0. }
  destruct (handler.validateProfile w _) as [msg|]; simpl; [done |].
  pose proof (recordOutcome_None (http_Do w (putRecordRequest w (Repo request)
                (Profile request) (BearerToken request) false))) as Hacc.
  destruct (recordOutcome _) as [response [e1|]]; simpl in *; [done |].
  destruct (dynamodb.UpdateUserInDynamoDB _ _ _ _ _) as [[e1|] tr]; simpl; [|done].
  intros [= <-]. right. repeat split; try done. by apply Hacc.
Qed.

(** X10: an invocation loads the configuration first, sends at most one
    request to the record service and issues at most one [UpdateItem]:
    nothing is retried. *)
Theorem HandleRequest_no_retry (request : RequestPayload) :
  let tr := (run (handler.HandleRequest w request)).2 in
  head tr = Some EvLoadDefaultConfig /\
  length (List.filter isHttpDo tr) <= 1 /\
  length (List.filter isUpdateItem tr) <= 1 /\
  length tr <= 3.
Proof.
  intros tr. subst tr.
  destruct (HandleRequest_trace w request)
    as [-> | [(hreq & ->) | (hreq & input & -> & _)]]; simpl; repeat split; lia.
Qed.

(** X11: the payload is either a single "error" entry, or the two entries
    "message" and "response" of a success, which come with a nil error
    only. *)
Theorem HandleRequest_payload_shape (request : RequestPayload) :
  let r := (run (handler.HandleRequest w request)).1 in
  (exists msg, r.1 = {[ "error" := msg ]}) \/
  (r = (successPayload, None)).
Proof.
  intros r. subst r. rewrite HandleRequest_eq.
  destruct (LoadDefaultConfig w); simpl; [left; by eexists |].
  destruct (handler.validateProfile w _); simpl; [left; by eexists |].
  pose proof (recordOutcome_ok (http_Do w (putRecordRequest w (Repo request)
                (Profile request) (BearerToken request) false))) as Hok.
  destruct (recordOutcome _) as [response [e|]]; simpl in *; [left; by eexists |].
  destruct (dynamodb.UpdateUserInDynamoDB _ _ _ _ _) as [[e|] tr]; simpl;
    [left; by eexists |].
  right. by rewrite Hok.
Qed.

(** X9: an empty [Repo] is found out only by the store client: for a
    valid profile the record service is called first, with the empty
    [repo], and when it accepts the record the invocation fails with
    "userID cannot be empty" without any [UpdateItem]. *)
Theorem HandleRequest_empty_repo (request : RequestPayload) :
  let req := putRecordRequest w "" (Profile request) (BearerToken request) false in
  Repo request = "" ->
  LoadDefaultConfig w = None ->
  handler.validateProfile w (Profile request) = None ->
  recordAccepted w req ->
  run (handler.HandleRequest w request) =
    (({[ "error" := "Failed to update profile in database" ]},
      Some "userID cannot be empty"),
     [EvLoadDefaultConfig; EvHttpDo req]).
Proof.
  intros req Hrepo Hc Hv Hacc. subst req.
  rewrite HandleRequest_eq, Hc, Hv, Hrepo.
  apply recordOutcome_None in Hacc. cbv zeta.
  destruct (recordOutcome _) as [response [e|]]; simpl in Hacc; [done |].
  by rewrite UpdateUserInDynamoDB_real.
Qed.

Lemma error_payload_no_message (msg : string) :
  ({[ "error" := msg ]} : gmap string string) !! "message" = None.
Proof. by apply lookup_singleton_ne. Qed.

Section with_range.

Hypothesis Hw : range_ok w.

(** X8: the invocation reports success exactly when the client was
    constructed, the profile is valid, the record service accepted the
    record, [Repo] is not empty and [UpdateItem] returned no error; then
    the payload is the success payload, the error is nil and the trace is
    the three calls in order.  In particular a valid profile always has a
    field to update: the store client's "no valid fields provided to
    update" cannot occur here. *)
Theorem HandleRequest_success_iff (request : RequestPayload) :
  let req := putRecordRequest w (Repo request) (Profile request)
               (BearerToken request) false in
  let input := updateItemInput w (Repo request) (Profile request) in
  let all_ok :=
    LoadDefaultConfig w = None /\
    handler.validateProfile w (Profile request) = None /\
    recordAccepted w req /\ Repo request ≠ "" /\
    dynamo_UpdateItem w input = None in
  ((run (handler.HandleRequest w request)).1.1 !! "message" =
     Some "Profile updated successfully" <-> all_ok) /\
  (all_ok ->
   run (handler.HandleRequest w request) =
     ((successPayload, None),
      [EvLoadDefaultConfig; EvHttpDo req; EvUpdateItem input])) /\
  (handler.validateProfile w (Profile request) = None ->
   (run (handler.HandleRequest w request)).1.2 ≠
     Some "no valid fields provided to update").
Proof.
  intros req input all_ok. subst req input all_ok.
  rewrite HandleRequest_eq.
  destruct (LoadDefaultConfig w) as [e0|]; simpl.
  { split; [split; [done | by intros [? _]] |]. split; [by intros [? _] | done]. }
  destruct (handler.validateProfile w _) as [msg|] eqn:Hv; simpl.
  { split; [split; [by rewrite error_payload_no_message | by intros (_ & ? & _)] |].
    split; [by intros (_ & ? & _) | done]. }
  pose proof (recordOutcome_None (http_Do w (putRecordRequest w (Repo request)
                (Profile request) (BearerToken request) false))) as Hacc.
  pose proof (recordOutcome_ok (http_Do w (putRecordRequest w (Repo request)
                (Profile request) (BearerToken request) false))) as Hok.
  destruct (recordOutcome _) as [response [e|]]; simpl in *.
  { split; [split; [by rewrite error_payload_no_message |] |].
    - intros (_ & _ & H%Hacc & _). done.
    - split; [|done]. intros (_ & _ & H%Hacc & _). done. }
  rewrite UpdateUserInDynamoDB_real.
  assert (size (dynamodb.buildUpdateExpression w (Profile request)).2 ≠ 1) as Hsz.
  { rewrite buildUpdateExpression_size_one by done. by apply validated_populated. }
  rewrite (bool_decide_false _ Hsz).
  case_bool_decide as Hrepo; simpl.
  { split; [split; [by rewrite error_payload_no_message | by intros (_ & _ & _ & ? & _)] |].
    split; [by intros (_ & _ & _ & ? & _) | done]. }
  destruct (dynamo_UpdateItem w _) as [e|] eqn:Hd; simpl.
  { split; [split; [by rewrite error_payload_no_message | by intros (_ & _ & _ & _ & ?)] |].
    split; [by intros (_ & _ & _ & _ & ?) |].
    by intros _ [=]. }
  rewrite Hok by done.
  split; [split; [intros _; repeat split; auto; by apply Hacc | done] |].
  split; [done | done].
Qed.

End with_range.

End orchestrator_more.

Lemma HandleRequest_error_channel_witness :
  (run (handler.HandleRequest world_dynamo_down aliceRequest)).1.1 =
    {[ "error" := "Failed to update profile in database" ]}.
Proof.
  assert ((run (handler.HandleRequest world_dynamo_down aliceRequest)).1.2 =
            Some "failed to update user in DynamoDB: connection reset") as He
    by (by vm_compute).
  destruct (HandleRequest_error_channel world_dynamo_down aliceRequest _ He)
    as [(e0 & H & _)|(_ & _ & _ & H)]; [discriminate H | exact H].
Defined.

Lemma HandleRequest_empty_repo_witness :
  let request := {| Repo := ""; Profile := aliceProfile; BearerToken := "token" |} in
  (run (handler.HandleRequest world_ok request)).1 =
    ({[ "error" := "Failed to update profile in database" ]},
     Some "userID cannot be empty").
Proof.
  intros request.
  rewrite (HandleRequest_empty_repo world_ok request); [done | done | done | | ].
  - by vm_compute.
  - eexists. split; [reflexivity | reflexivity].
Defined.

Lemma HandleRequest_success_iff_witness :
  range_ok world_ok /\
  (run (handler.HandleRequest world_ok aliceRequest)).1 = (successPayload, None).
Proof.
  split; [exact world_ok_range_ok |].
  destruct (HandleRequest_success_iff world_ok world_ok_range_ok aliceRequest)
    as (_ & H & _).
  rewrite H; [done |].
  split; [done |]. split; [by vm_compute |].
  split; [eexists; split; reflexivity |]. split; done.
Defined.

(** ** The revision with a typed response *)

Section typed_revision.

Variable rng : gmap string (unit -> bool) -> list (string * (unit -> bool)).
Variable w : World.
Implicit Types (p : UserProfile) (kvs : list (string * (unit -> bool))).

Lemma validations_to_list p :
  map_to_list (handler_typed.validations p) ≡ₚ validationList p.
Proof.
  unfold handler_typed.validations, validationList.
  repeat (rewrite map_to_list_insert; [apply Permutation_skip | by vm_compute]).
  by rewrite map_to_list_singleton.
Qed.

Lemma foldl_typed_range_body kvs (errs : list string) :
  foldl handler_typed.range_body errs kvs = errs ++ (filter checkFails kvs).*1.
Proof.
  revert errs. induction kvs as [|[msg check] kvs IH]; intros errs; simpl.
  - by rewrite app_nil_r.
  - rewrite filter_cons.
    destruct (decide _) as [Hc|Hc]; unfold checkFails in Hc; simpl in Hc.
    + rewrite Hc, IH. simpl. by rewrite <- app_assoc.
    + apply not_true_is_false in Hc. by rewrite Hc, IH.
Qed.

(** The reasons the typed [validateProfile] collects for a profile with
    the right NSID. *)
Lemma typed_validateProfile_eq p :
  NSID p = "social.shareframe.profile" ->
  handler_typed.validateProfile rng w p =
    match (filter checkFails (rng (handler_typed.validations p))).*1
          ++ timestampReasons w p with
    | [] => None
    | reasons => Some (aggregated reasons)
    end.
Proof.
  intros Hn. unfold handler_typed.validateProfile, timestampReasons.
  case_bool_decide as Hb; [done |]. clear Hb.
  rewrite foldl_typed_range_body. simpl.
  set (errs := (filter checkFails (rng (handler_typed.validations p))).*1).
  assert (forall l : list string,
            (if bool_decide (0 < length l)
             then Some ("profile validation failed: " +:+ strings.Join l "; ")
             else None) =
            match l with [] => None | reasons => Some (aggregated reasons) end)
    as Hl.
  { intros [|x l]; [done |]. by rewrite bool_decide_true by (simpl; lia). }
  destruct (bool_decide (UpdatedAt p = "")); [|destruct (time_Parse_RFC3339 w _)];
    simpl; rewrite ?app_nil_r, Hl;
    match goal with |- match ?l with _ => _ end = _ => by destruct l end.
Qed.

Hypothesis Hrng : range_validations_ok rng.

Lemma typed_reasons_elem_of p reason :
  reason ∈ (filter checkFails (rng (handler_typed.validations p))).*1 <->
  exists check, (reason, check) ∈ validationList p /\ check tt = true.
Proof.
  rewrite (Hrng _), validations_to_list, list_elem_of_fmap. split.
  - intros ([r check] & -> & [Hc Hin]%list_elem_of_filter). by exists check.
  - intros (check & Hin & Hc). exists (reason, check). split; [done |].
    by apply list_elem_of_filter.
Qed.

(** X14: the typed [validateProfile] stops at a wrong NSID with an error
    that names nothing else; with the right NSID, the reason of every
    failing check of [validations] and the reason for the timestamp
    ("updatedAt is required" when empty, "invalid datetime format for
    updatedAt" when it does not parse) occur in the error. *)
Theorem typed_validateProfile_reports (p : UserProfile) :
  (NSID p ≠ "social.shareframe.profile" ->
     handler_typed.validateProfile rng w p =
       Some "profile validation failed: invalid NSID: only 'social.shareframe.profile' is allowed") /\
  (NSID p = "social.shareframe.profile" ->
     forall reason,
       (exists check, (reason, check) ∈ validationList p /\ check tt = true) \/
       reason ∈ timestampReasons w p ->
       exists msg, handler_typed.validateProfile rng w p = Some msg /\
                   strings.Contains msg reason = true).
Proof.
  split.
  - intros Hn. unfold handler_typed.validateProfile. by rewrite bool_decide_true.
  - intros Hn reason Hr. rewrite typed_validateProfile_eq by done.
    assert (reason ∈ (filter checkFails (rng (handler_typed.validations p))).*1
                     ++ timestampReasons w p) as Hin.
    { apply elem_of_app. destruct Hr as [Hr|Hr]; [left | by right].
      by apply typed_reasons_elem_of. }
    destruct (_ ++ _) as [|r rs] eqn:E; [by apply elem_of_nil in Hin |].
    eexists. split; [done |]. by apply Contains_prefixed, Join_Contains.
Qed.

Lemma typed_checks_nil p :
  (filter checkFails (rng (handler_typed.validations p))).*1 = [] <->
  forall kv, kv ∈ validationList p -> kv.2 tt = false.
Proof.
  split.
  - intros Hnil [reason check] Hin. simpl.
    destruct (check tt) eqn:E; [|done].
    assert (reason ∈ (filter checkFails (rng (handler_typed.validations p))).*1)
      as H by (apply typed_reasons_elem_of; by exists check).
    rewrite Hnil in H. by apply elem_of_nil in H.
  - intros Hall.
    destruct (_.*1) as [|reason rs] eqn:E; [done |].
    assert (reason ∈ (filter checkFails (rng (handler_typed.validations p))).*1)
      as H by (rewrite E; left).
    apply typed_reasons_elem_of in H as (check & Hin & Hc).
    specialize (Hall _ Hin). simpl in Hall. congruence.
Qed.

(** X15: the typed [validateProfile] accepts a profile exactly when the
    NSID is right, the bio has at most 256 bytes, picture and banner URL
    are empty or match [urlRegex], the theme is empty, "light", "dark" or
    "custom", both colours are empty or match [hexColorRegex], and the
    timestamp is not empty and parses; the display name plays no part. *)
Theorem typed_validateProfile_None_iff (p : UserProfile) :
  handler_typed.validateProfile rng w p = None <->
  NSID p = "social.shareframe.profile" /\
  String.length (Bio p) <= 256 /\
  (ProfilePicture p = "" \/ handler.isValidURL (ProfilePicture p) = true) /\
  (ProfileBanner p = "" \/ handler.isValidURL (ProfileBanner p) = true) /\
  (Theme p = "" \/ Theme p = "light" \/ Theme p = "dark" \/ Theme p = "custom") /\
  (PrimaryColor p = "" \/ handler.isValidHexColor (PrimaryColor p) = true) /\
  (SecondaryColor p = "" \/ handler.isValidHexColor (SecondaryColor p) = true) /\
  UpdatedAt p ≠ "" /\ time_Parse_RFC3339 w (UpdatedAt p) = true.
Proof.
  assert (forall (s : string) (valid : bool),
            bool_decide (s ≠ "") && negb valid = false <-> s = "" \/ valid = true)
    as Hopt.
  { intros s valid. case_bool_decide as Hs; destruct valid; simpl;
      split; auto; by intros [?|?]. }
  destruct (decide (NSID p = "social.shareframe.profile")) as [Hn|Hn].
  2:{ split; [|by intros [? _]].
      unfold handler_typed.validateProfile. by rewrite bool_decide_true. }
  rewrite typed_validateProfile_eq by done.
  assert ((filter checkFails (rng (handler_typed.validations p))).*1
            ++ timestampReasons w p = [] <->
          (forall kv, kv ∈ validationList p -> kv.2 tt = false) /\
          UpdatedAt p ≠ "" /\ time_Parse_RFC3339 w (UpdatedAt p) = true) as Hnil.
  { rewrite <- typed_checks_nil. unfold timestampReasons. split.
    - intros [-> Ht]%app_eq_nil. split; [done |].
      case_bool_decide; [done |]. by destruct (time_Parse_RFC3339 w _).
    - intros (-> & Hu & ->). by rewrite bool_decide_false. }
  assert ((forall kv, kv ∈ validationList p -> kv.2 tt = false) <->
          String.length (Bio p) <= 256 /\
          (ProfilePicture p = "" \/ handler.isValidURL (ProfilePicture p) = true) /\
          (ProfileBanner p = "" \/ handler.isValidURL (ProfileBanner p) = true) /\
          (Theme p = "" \/ Theme p = "light" \/ Theme p = "dark" \/ Theme p = "custom") /\
          (PrimaryColor p = "" \/ handler.isValidHexColor (PrimaryColor p) = true) /\
          (SecondaryColor p = "" \/ handler.isValidHexColor (SecondaryColor p) = true))
    as Hchecks.
  { unfold validationList. split.
    - intros Hall.
      pose proof (Hall _ ltac:(left)) as H1.
      pose proof (Hall _ ltac:(right; left)) as H2.
      pose proof (Hall _ ltac:(do 2 right; left)) as H3.
      pose proof (Hall _ ltac:(do 3 right; left)) as H4.
      pose proof (Hall _ ltac:(do 4 right; left)) as H5.
      pose proof (Hall _ ltac:(do 5 right; left)) as H6.
      simpl in *. apply bool_decide_eq_false in H1.
      apply Hopt in H2, H3, H5, H6.
      split; [lia |]. repeat (split; [done |]). split; [|done].
      clear -H4. repeat case_bool_decide; try done; auto.
    - intros (H1 & H2 & H3 & H4 & H5 & H6) kv Hin.
      repeat (apply elem_of_cons in Hin as [->|Hin]); simpl.
      + apply bool_decide_eq_false. lia.
      + by apply Hopt.
      + by apply Hopt.
      + destruct H4 as [->|[->|[->| ->]]]; by vm_compute.
      + by apply Hopt.
      + by apply Hopt.
      + by apply elem_of_nil in Hin. }
  destruct (_ ++ _) as [|r rs] eqn:E.
  - split; [intros _ | done].
    destruct (proj1 Hnil eq_refl) as (Hall%Hchecks & Hu & Ht).
    destruct Hall as (H1 & H2 & H3 & H4 & H5 & H6).
    by repeat (split; [done |]).
  - split; [done |]. intros (_ & H1 & H2 & H3 & H4 & H5 & H6 & Hu & Ht).
    assert (r :: rs = []) as Hr.
    { apply Hnil. split; [apply Hchecks | done].
      by repeat (split; [done |]). }
    done.
Qed.

End typed_revision.

Lemma map_to_list_range_validations_ok :
  range_validations_ok map_to_list.
Proof. by intros m. Qed.

Lemma typed_validateProfile_reports_witness :
  range_validations_ok map_to_list /\
  exists msg,
    handler_typed.validateProfile map_to_list world_ok
      (withPictures "not a url" "" aliceProfile) = Some msg /\
    strings.Contains msg "invalid profilePicture URL" = true.
Proof.
  split; [exact map_to_list_range_validations_ok |].
  apply (typed_validateProfile_reports map_to_list world_ok
           map_to_list_range_validations_ok
           (withPictures "not a url" "" aliceProfile)); [done |].
  left. eexists. split; [unfold validationList; right; left | by vm_compute].
Defined.

Lemma typed_validateProfile_None_iff_witness :
  range_validations_ok map_to_list /\
  handler_typed.validateProfile map_to_list world_ok aliceProfile = None.
Proof.
  split; [exact map_to_list_range_validations_ok |].
  apply (typed_validateProfile_None_iff map_to_list world_ok
           map_to_list_range_validations_ok aliceProfile).
  simpl. repeat split; auto. lia.
Defined.

Section typed_orchestrator.

Variable rng : gmap string (unit -> bool) -> list (string * (unit -> bool)).
Variable w : World.
Implicit Types request : models_typed.RequestPayload.

(** The typed invocation, step by step. *)
Lemma typed_HandleRequest_eq request :
  run (handler_typed.HandleRequest rng w request) =
    match LoadDefaultConfig w with
    | Some e =>
        (({| models_typed.Message := "Internal server error";
             models_typed.Success := false |},
          Some ("failed to load AWS SDK config: " +:+ e)),
         [EvLoadDefaultConfig])
    | None =>
        match handler_typed.validateProfile rng w (models_typed.Profile request) with
        | Some msg =>
            (({| models_typed.Message := "Profile validation failed";
                 models_typed.Success := false |}, None),
             [EvLoadDefaultConfig])
        | None =>
            let req := putRecordRequest w (models_typed.DID request)
                         (models_typed.Profile request)
                         (models_typed.AuthToken request) false in
            match (recordOutcome (http_Do w req)).2 with
            | Some e =>
                (({| models_typed.Message := "Failed to update profile in AT Protocol";
                     models_typed.Success := false |}, Some e),
                 [EvLoadDefaultConfig; EvHttpDo req])
            | None =>
                match dynamodb.UpdateUserInDynamoDB w (realClient w)
                        (models_typed.DID request) (models_typed.Profile request)
                        [EvLoadDefaultConfig; EvHttpDo req] with
                | (Some e, tr) =>
                    (({| models_typed.Message := "Failed to update profile in database";
                         models_typed.Success := false |}, Some e), tr)
                | (None, tr) =>
                    (({| models_typed.Message := "Profile updated successfully";
                         models_typed.Success := true |}, None), tr)
                end
            end
        end
    end.
Proof.
  unfold handler_typed.HandleRequest, dynamodb.NewDynamoClient. io_unfold.
  destruct (LoadDefaultConfig w); simpl; [done |].
  destruct (handler_typed.validateProfile rng w _); simpl; [done |].
  rewrite updateProfileInATProtocol_eq. simpl.
  fold (recordOutcome (http_Do w (putRecordRequest w (models_typed.DID request)
          (models_typed.Profile request) (models_typed.AuthToken request) false))).
  destruct (recordOutcome _) as [response [e|]]; simpl; [done |].
  fold (realClient w).
  by destruct (dynamodb.UpdateUserInDynamoDB _ _ _ _ _) as [[e|] tr].
Qed.

(** X16: the typed [HandleRequest] answers with one of five fixed messages,
    never with the text of an error; [Success] is true exactly with
    "Profile updated successfully", and then the error is nil; the only
    failure that comes with a nil error is a validation failure, which
    makes no call beyond loading the configuration. *)
Theorem typed_HandleRequest_outcomes (request : models_typed.RequestPayload) :
  let r := run (handler_typed.HandleRequest rng w request) in
  models_typed.Message r.1.1 ∈ typedMessages /\
  (models_typed.Success r.1.1 = true <->
   models_typed.Message r.1.1 = "Profile updated successfully") /\
  (models_typed.Success r.1.1 = true -> r.1.2 = None) /\
  (models_typed.Success r.1.1 = false -> r.1.2 = None ->
   handler_typed.validateProfile rng w (models_typed.Profile request) ≠ None /\
   models_typed.Message r.1.1 = "Profile validation failed" /\
   r.2 = [EvLoadDefaultConfig]).
Proof.
  intros r. subst r. rewrite typed_HandleRequest_eq. unfold typedMessages.
  destruct (LoadDefaultConfig w); simpl.
  { split; [left |]. by repeat split. }
  destruct (handler_typed.validateProfile rng w _); simpl.
  { split; [right; left |]. by repeat split. }
  destruct (recordOutcome _).2; simpl.
  { split; [do 2 right; left |]. by repeat split. }
  destruct (dynamodb.UpdateUserInDynamoDB _ _ _ _ _) as [[e|] tr]; simpl.
  { split; [do 3 right; left |]. by repeat split. }
  split; [do 4 right; left |]. by repeat split.
Qed.

(** X17: in the typed revision a failure of the record-service write is
    an invocation-level error: the error of the write is returned as the
    error, the message is the fixed "Failed to update profile in AT
    Protocol", and the store is not touched. *)
Theorem typed_HandleRequest_record_failure
    (request : models_typed.RequestPayload) (e : error) :
  let req := putRecordRequest w (models_typed.DID request)
               (models_typed.Profile request)
               (models_typed.AuthToken request) false in
  LoadDefaultConfig w = None ->
  handler_typed.validateProfile rng w (models_typed.Profile request) = None ->
  (recordOutcome (http_Do w req)).2 = Some e ->
  run (handler_typed.HandleRequest rng w request) =
    (({| models_typed.Message := "Failed to update profile in AT Protocol";
         models_typed.Success := false |}, Some e),
     [EvLoadDefaultConfig; EvHttpDo req]).
Proof.
  intros req Hc Hv He. subst req.
  rewrite typed_HandleRequest_eq, Hc, Hv. cbv zeta. by rewrite He.
Qed.

End typed_orchestrator.

Lemma typed_HandleRequest_record_failure_witness :
  (run (handler_typed.HandleRequest map_to_list world_http500 aliceTypedRequest)).1 =
    ({| models_typed.Message := "Failed to update profile in AT Protocol";
        models_typed.Success := false |},
     Some "failed to update profile: 500 Internal Server Error").
Proof.
  rewrite (typed_HandleRequest_record_failure map_to_list world_http500
             aliceTypedRequest "failed to update profile: 500 Internal Server Error");
    [done | done | by vm_compute | done].
Defined.
